(** * Sight2Sense: conversation store and insight client

    A shallow embedding of [src/types.ts], [src/services/geminiService.ts]
    and the state handling of [src/App.tsx] ([handleSendMessage],
    [handleImageUpload], [resetChat], and the conditions under which the
    send button, the starter questions and the error banner are rendered).

    Conventions.
    - A JavaScript string is a Rocq [string] holding its UTF-8 bytes.
    - An optional or nullable string ([string | undefined], [string | null])
      is an [option string]; [""] is a string, and it is falsy.
    - [Date.now()] and [new Date()] are clock readings in milliseconds,
      passed in as integers; [n.toString()] is stdpp's [pretty].
    - An [async] function is cut at its [await]: the part that runs before
      it, and the part that runs once the awaited promise has settled.
      A file read is cut likewise: the change event starts a reader, and
      its [onloadend] runs later, with the closure of the render in which
      the file was picked.
    - React state is an explicit store.  A handler reads the values captured
      by the render it was created in (its closure) and writes through
      functional updaters, which are applied to the store as it is when the
      update runs. *)

From Stdlib Require Import ZArith QArith Ascii String.
From stdpp Require Import base tactics option list sorting strings pretty.

Local Open Scope Z_scope.
Local Open Scope list_scope.

(** ** JavaScript values *)

Module JS.

(** Truthiness of a string: every string but the empty one. *)
Definition truthy (s : string) : bool :=
  match s with
  | EmptyString => false
  | String _ _ => true
  end.

(** Truthiness of [string | undefined | null]. *)
Definition truthy_opt (o : option string) : bool :=
  match o with
  | Some s => truthy s
  | None => false
  end.

(** [o || d] where [d] is a string. *)
Definition or_string (o : option string) (d : string) : string :=
  match o with
  | Some s => if truthy s then s else d
  | None => d
  end.

(** [o || d] where [d] may itself be null. *)
Definition or_opt (o d : option string) : option string :=
  if truthy_opt o then o else d.

(** [o || undefined]. *)
Definition or_undefined (o : option string) : option string :=
  or_opt o None.

(** A string given by the codes of its bytes. *)
Definition bytes (l : list nat) : string :=
  foldr (λ n s, String (Ascii.ascii_of_nat n) s) EmptyString l.

(** The UTF-8 encodings of the code points that [String.prototype.trim]
    strips: WhiteSpace (TAB, VT, FF, SP, NBSP, ZWNBSP and category Zs)
    and LineTerminator (LF, CR, LS, PS). *)
Definition whiteSpace : list string :=
  bytes <$>
    [ [9]; [10]; [11]; [12]; [13]; [32];
      [194; 160];
      [225; 154; 128];
      [226; 128; 128]; [226; 128; 129]; [226; 128; 130]; [226; 128; 131];
      [226; 128; 132]; [226; 128; 133]; [226; 128; 134]; [226; 128; 135];
      [226; 128; 136]; [226; 128; 137]; [226; 128; 138];
      [226; 128; 168]; [226; 128; 169]; [226; 128; 175];
      [226; 129; 159];
      [227; 128; 128];
      [239; 187; 191] ]%nat.

(** [stripPrefix p s] is what follows [p] in [s], when [s] starts with [p]. *)
Fixpoint stripPrefix (p s : string) : option string :=
  match p, s with
  | EmptyString, _ => Some s
  | String a p', String b s' =>
      if Ascii.eqb a b then stripPrefix p' s' else None
  | String _ _, EmptyString => None
  end.

(** The rest of [s] after one of the tokens [ts], the first that fits. *)
Fixpoint stripOne (ts : list string) (s : string) : option string :=
  match ts with
  | [] => None
  | t :: ts' =>
      match stripPrefix t s with
      | Some r => Some r
      | None => stripOne ts' s
      end
  end.

(** Strips leading tokens, at most [n] of them. *)
Fixpoint stripLeading (ts : list string) (n : nat) (s : string) : string :=
  match n with
  | O => s
  | S n' =>
      match stripOne ts s with
      | Some r => stripLeading ts n' r
      | None => s
      end
  end.

Definition trimStart (s : string) : string :=
  stripLeading whiteSpace (String.length s) s.

Definition trimEnd (s : string) : string :=
  String.rev
    (stripLeading (String.rev <$> whiteSpace) (String.length s) (String.rev s)).

(** [s.trim()]. *)
Definition trim (s : string) : string := trimEnd (trimStart s).

(** [s.split(",")]: the pieces of [s] between its commas. *)
Fixpoint split_comma (s : string) : list string :=
  match s with
  | EmptyString => [EmptyString]
  | String c s' =>
      if Ascii.eqb c ","%char then EmptyString :: split_comma s'
      else
        match split_comma s' with
        | h :: t => String c h :: t
        | [] => [String c EmptyString]
        end
  end.

End JS.

(** ** [src/types.ts] *)

Inductive Role : Type := user | model.

Record Message : Type := {
  id : string;
  role : Role;
  text : string;
  image : option string;
  timestamp : Z
}.

Record ChatState : Type := {
  messages : list Message;
  isLoading : bool;
  error : option string
}.

Inductive SkillLevel : Type := BEGINNER | INTERMEDIATE | ADVANCED.

(** The string value of an enumeration member. *)
Definition SkillLevel_value (l : SkillLevel) : string :=
  match l with
  | BEGINNER => "Beginner"
  | INTERMEDIATE => "Intermediate"
  | ADVANCED => "Advanced"
  end.

(** ** The request to the inference service, as [@google/genai] takes it *)

Module GenAI.

Record InlineData : Type := {
  mimeType : string;
  data : string
}.

Inductive Part : Type :=
| inlineData (d : InlineData)
| textPart (t : string).

Record Content : Type := {
  role : string;
  parts : list Part
}.

Record Config : Type := {
  systemInstruction : string;
  temperature : Q;
  topP : Q
}.

Record Request : Type := {
  model : string;
  contents : list Content;
  config : Config
}.

(** How the promise of [ai.models.generateContent] settles: fulfilled with
    a response whose [text] may be undefined, or rejected with a value
    whose [message] may be undefined. *)
Inductive Outcome : Type :=
| Fulfilled (text : option string)
| Rejected (message : option string).

End GenAI.

(** ** [src/services/geminiService.ts] *)

Definition MODEL_NAME : string := "gemini-3-flash-preview".

Definition systemInstruction (skillLevel : SkillLevel) : string :=
"
You are Sight2Sense, an expert electronics and embedded-systems mentor. 
Your goal is to help users troubleshoot, analyze, and design electronic systems, circuits, PCBs, and General Purpose Control Systems (GPCS).

CORE PERSONALITY & MENTORSHIP:
- Use beginner-friendly yet technically accurate language.
- Mentor the user as if they are in a lab.
- Explain why each step matters, not just what to do.
- Encourage safe practices and logical reasoning.
- Adapt depth based on user skill level: " +:+ SkillLevel_value skillLevel +:+ ".

IF THE USER PROVIDES AN IMAGE:
- Analyze visible components, layout, and connections.
- Identify potential issues (short circuits, bad solder joints, polarity risks).
- Suggest safe diagnostic steps based on visual evidence.
- Mandatory Sections:
  ### Safety Check
  ### Component Identification

IF THE USER PROVIDES TEXT ONLY:
- Treat it as a general troubleshooting or design question.
- Guide the user through logical diagnostic steps.
- Explain expected readings and probing techniques.

SPECIFIC SCENARIOS TO HANDLE WELL:
- No power issues
- GPCS architecture explanation
- Input protection identification

MOBILE OPTIMIZATION:
- Short paragraphs
- Bullet points
- Clear summaries

SAFETY FIRST:
- Warn about high voltage and battery risks.
- Encourage datasheet verification.
".

(** [img.split(",")[1] || img]: the payload of a data URL, or the string
    itself when it has no comma or nothing after the first one. *)
Definition imageData (img : string) : string :=
  JS.or_string (JS.split_comma img !! 1%nat) img.

Definition imagePart (img : string) : GenAI.Part :=
  GenAI.inlineData {| GenAI.mimeType := "image/jpeg"; GenAI.data := imageData img |}.

(** The parts an optional image contributes: one when it is truthy. *)
Definition imageParts (img : option string) : list GenAI.Part :=
  match img with
  | Some i => if JS.truthy i then [imagePart i] else []
  | None => []
  end.

(** The callback of [history.map]. *)
Definition historyContent (msg : Message) : GenAI.Content :=
  {| GenAI.role := match role msg with user => "user" | model => "model" end;
     GenAI.parts := imageParts (image msg) ++ [GenAI.textPart (text msg)] |}.

(** [currentParts] after the optional push of the image and the push of
    the prompt. *)
Definition currentParts (prompt : string) (currentImage : option string)
  : list GenAI.Part :=
  imageParts currentImage ++ [GenAI.textPart prompt].

(** The argument of [ai.models.generateContent]. *)
Definition buildRequest (prompt : string) (history : list Message)
    (skillLevel : SkillLevel) (currentImage : option string) : GenAI.Request :=
  {| GenAI.model := MODEL_NAME;
     GenAI.contents :=
       (historyContent <$> history)
         ++ [ {| GenAI.role := "user";
                 GenAI.parts := currentParts prompt currentImage |} ];
     GenAI.config :=
       {| GenAI.systemInstruction := systemInstruction skillLevel;
          GenAI.temperature := 0.4%Q;
          GenAI.topP := 0.9%Q |} |}.

(** Where [generateElectronicsInsight] stands when it first yields: it has
    thrown without issuing a request, or it awaits the answer to one. *)
Inductive Insight : Type :=
| Throws (message : string)
| Awaits (req : GenAI.Request).

(** How an awaited call ends for its caller: a returned string, or a thrown
    value whose [message] may be undefined. *)
Inductive Settled : Type :=
| Returned (aiResponse : string)
| Thrown (message : option string).

(** [generateElectronicsInsight], up to its [await].  [apiKey] is
    [import.meta.env.VITE_GEMINI_API_KEY]. *)
Definition generateElectronicsInsight (apiKey : option string)
    (prompt : string) (history : list Message) (skillLevel : SkillLevel)
    (currentImage : option string) : Insight :=
  if negb (JS.truthy_opt apiKey) then Throws "VITE_GEMINI_API_KEY is missing"
  else Awaits (buildRequest prompt history skillLevel currentImage).

(** [generateElectronicsInsight], from its [await] on: the [return] of the
    [try] block and the [catch]. *)
Definition generateElectronicsInsight_settle (o : GenAI.Outcome) : Settled :=
  match o with
  | GenAI.Fulfilled text => Returned (JS.or_string text "No response generated.")
  | GenAI.Rejected message => Thrown (Some (JS.or_string message "Engine failure."))
  end.

(** The arguments of one call of [generateElectronicsInsight]. *)
Record InsightCall : Type := {
  call_prompt : string;
  call_history : list Message;
  call_skillLevel : SkillLevel;
  call_currentImage : option string
}.

(** A whole call against a service that answers a request with [service]:
    how the call ends, and the requests that went out. *)
Definition callInsight (apiKey : option string)
    (service : GenAI.Request → GenAI.Outcome) (c : InsightCall)
  : Settled * list GenAI.Request :=
  match generateElectronicsInsight apiKey (call_prompt c) (call_history c)
          (call_skillLevel c) (call_currentImage c) with
  | Throws message => (Thrown (Some message), [])
  | Awaits req => (generateElectronicsInsight_settle (service req), [req])
  end.

(** ** [src/App.tsx]: the store *)

(** The state of the [App] component that its handlers read or write.
    ([showSkillDropdown] only drives the presentation.) *)
Record AppState : Type := {
  chatState : ChatState;
  inputText : string;
  selectedImage : option string;
  skillLevel : SkillLevel
}.

(** The initial values given to [useState]. *)
Definition emptyChat : ChatState :=
  {| messages := []; isLoading := false; error := None |}.

Definition initialState : AppState :=
  {| chatState := emptyChat;
     inputText := "";
     selectedImage := None;
     skillLevel := INTERMEDIATE |}.

(** [setChatState(updater)], and [setChatState(value)] with a constant
    updater. *)
Definition setChatState (f : ChatState → ChatState) (st : AppState) : AppState :=
  {| chatState := f (chatState st);
     inputText := inputText st;
     selectedImage := selectedImage st;
     skillLevel := skillLevel st |}.

Definition setInputText (value : string) (st : AppState) : AppState :=
  {| chatState := chatState st;
     inputText := value;
     selectedImage := selectedImage st;
     skillLevel := skillLevel st |}.

Definition setSelectedImage (value : option string) (st : AppState) : AppState :=
  {| chatState := chatState st;
     inputText := inputText st;
     selectedImage := value;
     skillLevel := skillLevel st |}.

Definition setSkillLevel (value : SkillLevel) (st : AppState) : AppState :=
  {| chatState := chatState st;
     inputText := inputText st;
     selectedImage := selectedImage st;
     skillLevel := value |}.

(** ** [handleSendMessage] *)

Definition PLACEHOLDER : string := "Analyze this image.".

Definition DISPLAY_TEXT : string :=
  "📷 Image uploaded. Automated analysis in progress...".

Section Closure.

(** The render whose values the handler captured, and the arguments and
    clock readings of this call: [now] is [Date.now()], [date] is
    [new Date()]. *)
Variable render : AppState.
Variables customPrompt customImage : option string.
Variables now date : Z.

(** [customPrompt || inputText]. *)
Definition promptToUse : string :=
  JS.or_string customPrompt (inputText render).

(** [customImage || selectedImage]. *)
Definition imageToUse : option string :=
  JS.or_opt customImage (selectedImage render).

(** The condition of the early [return]. *)
Definition ignored : bool :=
  (negb (JS.truthy (JS.trim promptToUse)) && negb (JS.truthy_opt imageToUse))
  || isLoading (chatState render).

Definition userMessage : Message :=
  {| id := pretty now;
     role := user;
     text := JS.or_string (Some promptToUse) PLACEHOLDER;
     image :=
       if JS.truthy_opt customImage then JS.or_undefined imageToUse else None;
     timestamp := date |}.

(** [{ ...userMessage, text: ... }] when [customPrompt] is truthy. *)
Definition displayMessage : Message :=
  if JS.truthy_opt customPrompt then
    {| id := id userMessage;
       role := role userMessage;
       text := DISPLAY_TEXT;
       image := image userMessage;
       timestamp := timestamp userMessage |}
  else userMessage.

(** The arguments given to [generateElectronicsInsight]. *)
Definition insightCall : InsightCall :=
  {| call_prompt := text userMessage;
     call_history := messages (chatState render);
     call_skillLevel := skillLevel render;
     call_currentImage := JS.or_undefined imageToUse |}.

(** The updater of the first [setChatState]. *)
Definition appendUser (prev : ChatState) : ChatState :=
  {| messages := messages prev ++ [displayMessage];
     isLoading := true;
     error := None |}.

(** [handleSendMessage] up to its [await]: the store after the updates
    it has made, and the call it awaits, if it did not return early. *)
Definition handleSendMessage (store : AppState)
  : AppState * option InsightCall :=
  if ignored then (store, None)
  else (setInputText "" (setChatState appendUser store), Some insightCall).

End Closure.

(** The message built in the [try] block; [now] is [Date.now()] and [date]
    is [new Date()], both read after the call has returned. *)
Definition assistantMessage (aiResponse : string) (now date : Z) : Message :=
  {| id := pretty (now + 1);
     role := model;
     text := aiResponse;
     image := None;
     timestamp := date |}.

(** The updater of the [setChatState] of the [try] block. *)
Definition appendModel (m : Message) (prev : ChatState) : ChatState :=
  {| messages := messages prev ++ [m];
     isLoading := false;
     error := error prev |}.

(** The updater of the [setChatState] of the [catch] block. *)
Definition recordError (message : option string) (prev : ChatState) : ChatState :=
  {| messages := messages prev;
     isLoading := false;
     error := Some (JS.or_string message "Engine failure.") |}.

(** [handleSendMessage] from its [await] on. *)
Definition handleSendMessage_settle (s : Settled) (now date : Z)
    (store : AppState) : AppState :=
  match s with
  | Returned aiResponse =>
      setChatState (appendModel (assistantMessage aiResponse now date)) store
  | Thrown message => setChatState (recordError message) store
  end.

(** ** [handleImageUpload] and [resetChat] *)

Definition UPLOAD_PROMPT : string :=
  "Initiate full Safety Check and Component Identification. Be concise for mobile.".

(** [handleImageUpload] from the moment the reader has finished: the body
    of [reader.onloadend].  [render] is the render in which the file was
    picked, whose [handleSendMessage] the callback calls; [result] is
    [reader.result], the data URL of the file, or null after a failed
    read ([onloadend] fires in both cases, and the cast to [string] does
    not change the value). *)
Definition handleImageUpload (render : AppState) (result : option string)
    (now date : Z) (store : AppState) : AppState * option InsightCall :=
  handleSendMessage render (Some UPLOAD_PROMPT) result now date
    (setSelectedImage result store).

Definition resetChat (store : AppState) : AppState :=
  setSelectedImage None (setChatState (λ _, emptyChat) store).

(** ** The session: user events and completions *)

(** The store together with the calls of [generateElectronicsInsight] that
    have been made and have not settled yet, and the file readers that
    have been started and have not finished yet, each with the render in
    which its file was picked. *)
Record World : Type := {
  store : AppState;
  outstanding : list InsightCall;
  readers : list AppState
}.

Definition initialWorld : World :=
  {| store := initialState; outstanding := []; readers := [] |}.

(** What can happen to the component.  The handlers of an event are those
    of the render of the current store.  [FileChange chosen] is the change
    event of the file input, [chosen] telling whether [e.target.files]
    has a first file; it starts a reader.  [ReaderEnd i result] is the
    [onloadend] of the [i]-th reader, which runs the callback made in the
    render in which the file was picked.  [Completion i answer] settles
    the [i]-th outstanding call; [answer] is what the service does with
    its request, if one went out. *)
Inductive Action : Type :=
| SendMessage (customPrompt customImage : option string) (now date : Z)
| FileChange (chosen : bool)
| ReaderEnd (i : nat) (result : option string) (now date : Z)
| ResetChat
| InputChange (value : string)
| SkillChange (level : SkillLevel)
| Completion (i : nat) (answer : GenAI.Outcome) (now date : Z).

Definition issue (r : AppState * option InsightCall) (w : World) : World :=
  {| store := r.1;
     outstanding := outstanding w ++ option_list r.2;
     readers := readers w |}.

Definition withStore (st : AppState) (w : World) : World :=
  {| store := st; outstanding := outstanding w; readers := readers w |}.

Section Session.

(** [import.meta.env.VITE_GEMINI_API_KEY], fixed at build time. *)
Variable apiKey : option string.

Definition perform (a : Action) (w : World) : World :=
  match a with
  | SendMessage customPrompt customImage now date =>
      issue (handleSendMessage (store w) customPrompt customImage now date
               (store w)) w
  | FileChange chosen =>
      if chosen then
        {| store := store w;
           outstanding := outstanding w;
           readers := readers w ++ [store w] |}
      else w
  | ReaderEnd i result now date =>
      match readers w !! i with
      | Some render =>
          issue (handleImageUpload render result now date (store w))
            {| store := store w;
               outstanding := outstanding w;
               readers := delete i (readers w) |}
      | None => w
      end
  | ResetChat => withStore (resetChat (store w)) w
  | InputChange value => withStore (setInputText value (store w)) w
  | SkillChange level => withStore (setSkillLevel level (store w)) w
  | Completion i answer now date =>
      match outstanding w !! i with
      | Some c =>
          {| store :=
               handleSendMessage_settle
                 (callInsight apiKey (λ _, answer) c).1 now date (store w);
             outstanding := delete i (outstanding w);
             readers := readers w |}
      | None => w
      end
  end.

Definition run (acts : list Action) (w : World) : World :=
  foldl (λ w a, perform a w) w acts.

End Session.

(** The clock readings an action makes, in the order it makes them. *)
Definition readings (a : Action) : list Z :=
  match a with
  | SendMessage _ _ now date => [now; date]
  | ReaderEnd _ _ now date => [now; date]
  | Completion _ _ now date => [now; date]
  | FileChange _ | ResetChat | InputChange _ | SkillChange _ => []
  end.

(** The clock never runs backwards along a sequence of actions. *)
Definition chronological (acts : list Action) : Prop :=
  StronglySorted Z.le (acts ≫= readings).

(** A state of the session with credential [apiKey]. *)
Definition reachable (apiKey : option string) (w : World) : Prop :=
  ∃ acts, chronological acts ∧ run apiKey acts initialWorld = w.

(** The identifiers of a conversation, in order. *)
Definition ids (c : ChatState) : list string := id <$> messages c.

(** The new turn of a request: the last of its contents. *)
Definition newTurn (req : GenAI.Request) : option GenAI.Content :=
  last (GenAI.contents req).

(** The readings of [Date.now()] along a sequence of actions. *)
Definition stamp (a : Action) : list Z :=
  match a with
  | SendMessage _ _ now _ => [now]
  | ReaderEnd _ _ now _ => [now]
  | Completion _ _ now _ => [now]
  | FileChange _ | ResetChat | InputChange _ | SkillChange _ => []
  end.

Definition stamps (acts : list Action) : list Z := acts ≫= stamp.

(** Each reading of [Date.now()] is at least two milliseconds after the
    one before. *)
Definition spaced (acts : list Action) : Prop :=
  StronglySorted (λ x y, x + 2 ≤ y) (stamps acts).

(** The identifiers are the decimal forms of strictly increasing numbers,
    none above [bound + 1]. *)
Definition increasingIds (bound : Z) (c : ChatState) : Prop :=
  ∃ ns : list Z,
    ids c = pretty <$> ns
    ∧ StronglySorted Z.lt ns
    ∧ Forall (λ n, n ≤ bound + 1) ns.

(** The latest reading of [Date.now()] once [a] has run, [bound] being the
    latest before it. *)
Definition bump (bound : Z) (a : Action) : Z :=
  match stamp a with
  | now :: _ => now
  | [] => bound
  end.

(** ** Sample sessions *)

(** A question is answered 950 ms after it was sent, and the next
    question is sent one millisecond after the answer arrived. *)
Definition collidingRun : list Action :=
  [ InputChange "My circuit isn't powering on";
    SendMessage None None 1700000000000 1700000000000;
    Completion 0 (GenAI.Fulfilled (Some "Check fuse F1."))
      1700000000950 1700000000950;
    InputChange "F1 is fine";
    SendMessage None None 1700000000951 1700000000951 ].

(** The same, with the next question sent within the millisecond in which
    the answer arrived. *)
Definition regressingRun : list Action :=
  [ InputChange "My circuit isn't powering on";
    SendMessage None None 1700000000000 1700000000000;
    Completion 0 (GenAI.Fulfilled (Some "Check fuse F1."))
      1700000000950 1700000000950;
    InputChange "F1 is fine";
    SendMessage None None 1700000000950 1700000000950 ].

(** A store with a staged image and a question typed. *)
Definition stagedWorld : World :=
  {| store :=
       setSelectedImage (Some "data:image/png;base64,QUJD")
         (setInputText "And what is U3?" initialState);
     outstanding := [];
     readers := [] |}.

(** A question is typed and a file is picked while the conversation is
    empty; before the reader has finished the question is sent; then the
    reader finishes, 40 ms after the question was sent. *)
Definition staleRun_before : list Action :=
  [ InputChange "Why is R1 hot?";
    FileChange true;
    SendMessage None None 1700000000000 1700000000000 ].

Definition staleRead : Action :=
  ReaderEnd 0 (Some "data:image/png;base64,QUJD") 1700000000040 1700000000040.

(** An image is uploaded and the analysis answered; then another file is
    picked, and its read fails. *)
Definition failedRead_before : list Action :=
  [ FileChange true;
    ReaderEnd 0 (Some "data:image/png;base64,QUJD") 1700000000000 1700000000000;
    Completion 0 (GenAI.Fulfilled (Some "### Safety Check"))
      1700000000950 1700000000950;
    FileChange true ].

Definition failedRead : Action :=
  ReaderEnd 0 None 1700000002000 1700000002000.

(** The states before and after the last step of these two sessions. *)
Definition staleBefore : World := run (Some "k") staleRun_before initialWorld.
Definition staleAfter : World := perform (Some "k") staleRead staleBefore.
Definition failedBefore : World := run (Some "k") failedRead_before initialWorld.
Definition failedAfter : World := perform (Some "k") failedRead failedBefore.

(** ** [src/App.tsx]: what the rendered controls do *)

Definition STARTER_QUESTIONS : list string :=
  [ "My circuit isn't powering on—where should I start probing with my multimeter to find the fault?";
    "What common protection components are found at a power input, and how do I test them?";
    "What are the best practices for safely probing a live circuit to avoid shorting pins?";
    "I suspect a short circuit on my board. What is a logical step-by-step process to locate it?";
    "Walk me through designing a basic GPCS (Control System) logic flow for a sensor and actuator.";
    "I just finished soldering a new PCB. What visual and electrical checks should I do before applying power?";
    "My microcontroller isn't reading a sensor correctly. How can I troubleshoot the signal path?" ].

(** The [disabled] attribute of the send button. *)
Definition sendDisabled (render : AppState) : bool :=
  (negb (JS.truthy (JS.trim (inputText render)))
   && negb (JS.truthy_opt (selectedImage render)))
  || isLoading (chatState render).

(** The starter questions are rendered while there is no message:
    [chatState.messages.length === 0]. *)
Definition startersShown (render : AppState) : bool :=
  match messages (chatState render) with
  | [] => true
  | _ :: _ => false
  end.

(** The error banner is rendered when [chatState.error] is truthy. *)
Definition errorShown (render : AppState) : bool :=
  JS.truthy_opt (error (chatState render)).

(** ** Vocabulary of the properties *)

(** One of TAB, LF, VT, FF, CR and SP. *)
Definition asciiBlank (c : ascii) : bool :=
  let n := Ascii.nat_of_ascii c in
  ((9 <=? n) && (n <=? 13) || (n =? 32))%nat.

Fixpoint allBlank (s : string) : bool :=
  match s with
  | EmptyString => true
  | String c s' => asciiBlank c && allBlank s'
  end.

Fixpoint commaFree (s : string) : bool :=
  match s with
  | EmptyString => true
  | String c s' => negb (Ascii.eqb c ","%char) && commaFree s'
  end.

(** If [a] is the end of a read, the conversation state is still the one
    of the render in which the file was picked. *)
Definition freshRead (a : Action) (w : World) : Prop :=
  match a with
  | ReaderEnd i _ _ _ =>
      match readers w !! i with
      | Some render => chatState render = chatState (store w)
      | None => True
      end
  | _ => True
  end.

(** Every read of the sequence ends that way. *)
Fixpoint freshReads (apiKey : option string) (acts : list Action) (w : World)
  : Prop :=
  match acts with
  | [] => True
  | a :: acts' => freshRead a w ∧ freshReads apiKey acts' (perform apiKey a w)
  end.

(** A read that ended in failure. *)
Definition isFailedRead (a : Action) : bool :=
  match a with
  | ReaderEnd _ None _ _ => true
  | _ => false
  end.

Definition isReset (a : Action) : bool :=
  match a with
  | ResetChat => true
  | _ => false
  end.

(** No action of the sequence is a reset. *)
Definition noReset (acts : list Action) : bool :=
  forallb (λ a, negb (isReset a)) acts.

(** The admission gate: no call is outstanding and nothing is pending, or
    one call is outstanding, the store is pending and holds the history of
    that call followed by one user turn; and the first turn, if any, is a
    user turn. *)
Definition gated (w : World) : Prop :=
  match outstanding w with
  | [] => isLoading (chatState (store w)) = false
  | [c] =>
      isLoading (chatState (store w)) = true
      ∧ ∃ m, messages (chatState (store w)) = call_history c ++ [m]
             ∧ role m = user
  | _ :: _ :: _ => False
  end
  ∧ ∀ m, head (messages (chatState (store w))) = Some m → role m = user.

(** While a call is outstanding the conversation is not empty, and the
    first turn, if any, is a user turn. *)
Definition started (w : World) : Prop :=
  (outstanding w ≠ [] → messages (chatState (store w)) ≠ [])
  ∧ ∀ m, head (messages (chatState (store w))) = Some m → role m = user.

(** The inline-data parts of a request. *)
Definition inlineParts (req : GenAI.Request) : list GenAI.InlineData :=
  c ← GenAI.contents req;
  p ← GenAI.parts c;
  match p with
  | GenAI.inlineData d => [d]
  | GenAI.textPart _ => []
  end.

(** * Properties *)

(** ** Helper facts *)

Lemma trim_empty : JS.trim "" = "".
Proof. reflexivity. Qed.

(** An accepted call appends exactly the display message, raises the
    pending flag, clears the error and the input, and awaits one call. *)
Lemma handleSendMessage_accepted render customPrompt customImage now date store :
  ignored render customPrompt customImage = false →
  handleSendMessage render customPrompt customImage now date store
  = ( {| chatState :=
           {| messages :=
                messages (chatState store)
                  ++ [displayMessage render customPrompt customImage now date];
              isLoading := true;
              error := None |};
         inputText := "";
         selectedImage := selectedImage store;
         skillLevel := skillLevel store |},
      Some (insightCall render customPrompt customImage now date) ).
Proof. unfold handleSendMessage. by intros ->. Qed.

Lemma handleSendMessage_ignored render customPrompt customImage now date store :
  ignored render customPrompt customImage = true →
  handleSendMessage render customPrompt customImage now date store = (store, None).
Proof. unfold handleSendMessage. by intros ->. Qed.

(** ** The insight client *)

(** C4: when the API-key credential is absent (undefined or empty), an
    invocation of the insight client throws "VITE_GEMINI_API_KEY is missing"
    before it awaits anything, and the whole call ends with that message
    and no request sent to the service. *)
Theorem C4_missing_key_fails_fast
    (apiKey : option string) (service : GenAI.Request → GenAI.Outcome)
    (c : InsightCall) :
  JS.truthy_opt apiKey = false →
  generateElectronicsInsight apiKey (call_prompt c) (call_history c)
    (call_skillLevel c) (call_currentImage c)
  = Throws "VITE_GEMINI_API_KEY is missing"
  ∧ callInsight apiKey service c
    = (Thrown (Some "VITE_GEMINI_API_KEY is missing"), []).
Proof.
  intros Hkey. unfold callInsight, generateElectronicsInsight.
  by rewrite Hkey.
Qed.

Lemma C4_missing_key_fails_fast_witness :
  generateElectronicsInsight None "Why is R1 hot?" [] BEGINNER None
  = Throws "VITE_GEMINI_API_KEY is missing"
  ∧ callInsight None (λ _, GenAI.Fulfilled (Some "unused"))
      {| call_prompt := "Why is R1 hot?"; call_history := [];
         call_skillLevel := BEGINNER; call_currentImage := None |}
    = (Thrown (Some "VITE_GEMINI_API_KEY is missing"), []).
Proof.
  exact (C4_missing_key_fails_fast None (λ _, GenAI.Fulfilled (Some "unused"))
           {| call_prompt := "Why is R1 hot?"; call_history := [];
              call_skillLevel := BEGINNER; call_currentImage := None |}
           eq_refl).
Defined.

(** With a credential, the invocation issues exactly the request built
    from its arguments. *)
Lemma generateElectronicsInsight_awaits apiKey prompt history level currentImage :
  JS.truthy_opt apiKey = true →
  generateElectronicsInsight apiKey prompt history level currentImage
  = Awaits (buildRequest prompt history level currentImage).
Proof. unfold generateElectronicsInsight. by intros ->. Qed.

Lemma generateElectronicsInsight_awaits_inv apiKey prompt history level currentImage req :
  generateElectronicsInsight apiKey prompt history level currentImage = Awaits req →
  JS.truthy_opt apiKey = true ∧ req = buildRequest prompt history level currentImage.
Proof.
  unfold generateElectronicsInsight.
  destruct (JS.truthy_opt apiKey); simpl; [|done].
  intros [= <-]. done.
Qed.

Lemma newTurn_buildRequest prompt history level currentImage :
  newTurn (buildRequest prompt history level currentImage)
  = Some {| GenAI.role := "user";
            GenAI.parts := currentParts prompt currentImage |}.
Proof. unfold newTurn, buildRequest. simpl. apply last_snoc. Qed.

(** C8: in the request that an invocation of the insight client sends, the
    new turn (the last of the contents) is a user turn whose parts are the
    image part followed by the text part when the invocation carries an
    image, and the text part alone when it carries none. *)
Theorem C8_image_before_text
    (apiKey : option string) (prompt : string) (history : list Message)
    (level : SkillLevel) (currentImage : option string) (req : GenAI.Request) :
  generateElectronicsInsight apiKey prompt history level currentImage = Awaits req →
  (∀ img, currentImage = Some img → JS.truthy img = true →
     newTurn req
     = Some {| GenAI.role := "user";
               GenAI.parts :=
                 [ GenAI.inlineData
                     {| GenAI.mimeType := "image/jpeg";
                        GenAI.data := imageData img |};
                   GenAI.textPart prompt ] |})
  ∧ (JS.truthy_opt currentImage = false →
     newTurn req
     = Some {| GenAI.role := "user";
               GenAI.parts := [ GenAI.textPart prompt ] |}).
Proof.
  intros [_ ->]%generateElectronicsInsight_awaits_inv.
  rewrite newTurn_buildRequest. unfold currentParts, imageParts. split.
  - intros img -> Himg. by rewrite Himg.
  - destruct currentImage as [[|a i]|]; simpl; done.
Qed.

Lemma C8_image_before_text_witness :
  (∀ img, Some "data:image/jpeg;base64,QUJD" = Some img → JS.truthy img = true →
     newTurn (buildRequest "What is U3?" [] ADVANCED
                (Some "data:image/jpeg;base64,QUJD"))
     = Some {| GenAI.role := "user";
               GenAI.parts :=
                 [ GenAI.inlineData
                     {| GenAI.mimeType := "image/jpeg";
                        GenAI.data := imageData img |};
                   GenAI.textPart "What is U3?" ] |})
  ∧ (JS.truthy_opt (Some "data:image/jpeg;base64,QUJD") = false →
     newTurn (buildRequest "What is U3?" [] ADVANCED
                (Some "data:image/jpeg;base64,QUJD"))
     = Some {| GenAI.role := "user";
               GenAI.parts := [ GenAI.textPart "What is U3?" ] |}).
Proof.
  exact (C8_image_before_text (Some "k") "What is U3?" [] ADVANCED
           (Some "data:image/jpeg;base64,QUJD") _ eq_refl).
Defined.

(** ** The conversation store *)

(** C7: whatever the store holds, [resetChat] leaves an empty turn
    sequence, pending = false, error = null and no staged image; it is a
    total function, so it always succeeds. *)
Theorem C7_reset_yields_empty (st : AppState) :
  messages (chatState (resetChat st)) = []
  ∧ isLoading (chatState (resetChat st)) = false
  ∧ error (chatState (resetChat st)) = None
  ∧ selectedImage (resetChat st) = None.
Proof. by unfold resetChat. Qed.

(** The early return fires when there is neither text nor image, or when
    the render shows a pending request. *)
Lemma ignored_when_empty_or_pending render customPrompt customImage :
  (JS.truthy_opt customPrompt = false ∧ inputText render = ""
   ∧ JS.truthy_opt customImage = false
   ∧ JS.truthy_opt (selectedImage render) = false)
  ∨ isLoading (chatState render) = true →
  ignored render customPrompt customImage = true.
Proof.
  unfold ignored, promptToUse, imageToUse, JS.or_opt.
  intros [(Hp & Hi & Hc & Hs) | ->]; [|by rewrite orb_true_r].
  rewrite Hc, Hs, Hi.
  assert (JS.or_string customPrompt "" = "") as ->.
  { by destruct customPrompt as [[|? ?]|]. }
  by rewrite trim_empty.
Qed.

(** X21: a call of [handleSendMessage] whose own render shows neither
    text nor image (no argument given, nothing typed, nothing staged), or
    shows a pending request, changes nothing, whatever the store holds: it
    returns the store as it is and makes no call; so such a click or key
    press leaves the session as it is. *)
Theorem ignored_call_changes_nothing
    (apiKey : option string) (render : AppState)
    (customPrompt customImage : option string) (now date : Z) :
  (JS.truthy_opt customPrompt = false ∧ inputText render = ""
   ∧ JS.truthy_opt customImage = false
   ∧ JS.truthy_opt (selectedImage render) = false)
  ∨ isLoading (chatState render) = true →
  (∀ store,
     handleSendMessage render customPrompt customImage now date store
     = (store, None))
  ∧ (∀ w, store w = render →
          perform apiKey (SendMessage customPrompt customImage now date) w = w).
Proof.
  intros H%ignored_when_empty_or_pending. split.
  - intros store. by apply handleSendMessage_ignored.
  - intros [st out rd] Hst. simpl in Hst. subst st. cbn [perform store].
    rewrite (handleSendMessage_ignored _ _ _ _ _ _ H).
    unfold issue. simpl. by rewrite app_nil_r.
Qed.

Lemma ignored_call_changes_nothing_witness :
  (∀ store,
     handleSendMessage initialState None None 1700000000000 1700000000000 store
     = (store, None))
  ∧ (∀ w, store w = initialState →
          perform (Some "k") (SendMessage None None 1700000000000 1700000000000) w
          = w).
Proof.
  apply (ignored_call_changes_nothing (Some "k") initialState None None).
  left. repeat split; reflexivity.
Defined.

(** C5: an accepted submit that carries an image (given as argument or
    staged) and no text (no prompt argument, nothing typed) appends a user
    turn whose text is the placeholder "Analyze this image.". *)
Theorem C5_image_only_submit_stores_placeholder
    (render : AppState) (customPrompt customImage : option string)
    (now date : Z) (store : AppState) :
  JS.truthy_opt customPrompt = false →
  inputText render = "" →
  JS.truthy_opt (imageToUse render customImage) = true →
  isLoading (chatState render) = false →
  ∃ m c store',
    handleSendMessage render customPrompt customImage now date store
    = (store', Some c)
    ∧ messages (chatState store') = messages (chatState store) ++ [m]
    ∧ role m = user
    ∧ text m = "Analyze this image.".
Proof.
  intros Hp Hi Himg Hl.
  assert (promptToUse render customPrompt = "") as Hprompt.
  { unfold promptToUse. rewrite Hi. by destruct customPrompt as [[|? ?]|]. }
  assert (ignored render customPrompt customImage = false) as Hacc.
  { unfold ignored. by rewrite Hprompt, Himg, Hl. }
  eexists _, _, _. split; [by apply handleSendMessage_accepted|].
  simpl. split; [done|].
  unfold displayMessage, userMessage. rewrite Hp, Hprompt. by simpl.
Qed.

Lemma C5_image_only_submit_stores_placeholder_witness :
  ∃ m c store',
    handleSendMessage
      (setSelectedImage (Some "data:image/png;base64,QUJD") initialState)
      None None 1700000000000 1700000000001
      (setSelectedImage (Some "data:image/png;base64,QUJD") initialState)
    = (store', Some c)
    ∧ messages (chatState store')
      = messages
          (chatState
             (setSelectedImage (Some "data:image/png;base64,QUJD") initialState))
          ++ [m]
    ∧ role m = user
    ∧ text m = "Analyze this image.".
Proof.
  apply (C5_image_only_submit_stores_placeholder
           (setSelectedImage (Some "data:image/png;base64,QUJD") initialState)
           None None); reflexivity.
Defined.

Lemma UPLOAD_PROMPT_not_blank : JS.truthy (JS.trim UPLOAD_PROMPT) = true.
Proof. vm_compute. reflexivity. Qed.

(** C9: when the file picker yields an image and the render shows no
    pending request, the appended user turn has the display text
    "📷 Image uploaded. Automated analysis in progress...", the prompt given
    to the insight client is "Initiate full Safety Check and Component
    Identification. Be concise for mobile.", and the two differ. *)
Theorem C9_upload_display_text_differs_from_prompt
    (render : AppState) (base64 : string) (now date : Z) (store : AppState) :
  isLoading (chatState render) = false →
  ∃ m c store',
    handleImageUpload render (Some base64) now date store = (store', Some c)
    ∧ messages (chatState store') = messages (chatState store) ++ [m]
    ∧ text m = "📷 Image uploaded. Automated analysis in progress..."
    ∧ call_prompt c
      = "Initiate full Safety Check and Component Identification. Be concise for mobile."
    ∧ text m ≠ call_prompt c.
Proof.
  intros Hl.
  assert (ignored render (Some UPLOAD_PROMPT) (Some base64) = false) as Hacc.
  { unfold ignored. rewrite Hl, orb_false_r.
    change (promptToUse render (Some UPLOAD_PROMPT)) with UPLOAD_PROMPT.
    by rewrite UPLOAD_PROMPT_not_blank. }
  eexists _, _, _. split.
  { unfold handleImageUpload. by apply handleSendMessage_accepted. }
  repeat split; try reflexivity. simpl. discriminate.
Qed.

Lemma C9_upload_display_text_differs_from_prompt_witness :
  ∃ m c store',
    handleImageUpload initialState (Some "data:image/png;base64,QUJD")
      1700000000000 1700000000001 initialState
    = (store', Some c)
    ∧ messages (chatState store') = messages (chatState initialState) ++ [m]
    ∧ text m = "📷 Image uploaded. Automated analysis in progress..."
    ∧ call_prompt c
      = "Initiate full Safety Check and Component Identification. Be concise for mobile."
    ∧ text m ≠ call_prompt c.
Proof.
  apply (C9_upload_display_text_differs_from_prompt initialState
           "data:image/png;base64,QUJD" 1700000000000 1700000000001
           initialState).
  reflexivity.
Defined.

(** X20: an accepted submit made from an event handler (send button,
    Enter key, starter question) passes as history exactly the turns that
    the store held before it: the store then holds the history followed by
    the one appended turn, while the prompt argument is the text of the
    new user message and the image argument is the image in use. *)
Theorem click_history_is_prior_turns
    (apiKey : option string) (w : World)
    (customPrompt customImage : option string) (now date : Z) :
  ignored (store w) customPrompt customImage = false →
  ∃ c,
    outstanding (perform apiKey (SendMessage customPrompt customImage now date) w)
    = outstanding w ++ [c]
    ∧ call_history c = messages (chatState (store w))
    ∧ messages
        (chatState
           (store (perform apiKey (SendMessage customPrompt customImage now date) w)))
      = call_history c
          ++ [displayMessage (store w) customPrompt customImage now date]
    ∧ call_prompt c
      = JS.or_string (Some (JS.or_string customPrompt (inputText (store w))))
          "Analyze this image."
    ∧ call_currentImage c
      = JS.or_undefined (JS.or_opt customImage (selectedImage (store w))).
Proof.
  intros Hacc. cbn [perform].
  rewrite (handleSendMessage_accepted _ _ _ _ _ _ Hacc).
  by eexists.
Qed.

Lemma click_history_is_prior_turns_witness :
  ∃ c,
    outstanding
      (perform (Some "k") (SendMessage None None 1700000000000 1700000000001)
         stagedWorld)
    = outstanding stagedWorld ++ [c]
    ∧ call_history c = messages (chatState (store stagedWorld))
    ∧ messages
        (chatState
           (store (perform (Some "k")
                     (SendMessage None None 1700000000000 1700000000001)
                     stagedWorld)))
      = call_history c
          ++ [displayMessage (store stagedWorld) None None
                1700000000000 1700000000001]
    ∧ call_prompt c
      = JS.or_string
          (Some (JS.or_string None (inputText (store stagedWorld))))
          "Analyze this image."
    ∧ call_currentImage c
      = JS.or_undefined (JS.or_opt None (selectedImage (store stagedWorld))).
Proof.
  exact (click_history_is_prior_turns (Some "k") stagedWorld None None
           1700000000000 1700000000001 eq_refl).
Defined.

(** A call that ends in a throw either had no credential and sent nothing,
    or sent one request that the service rejected. *)
Lemma callInsight_thrown apiKey service c message reqs :
  callInsight apiKey service c = (Thrown message, reqs) →
  (JS.truthy_opt apiKey = false ∧ reqs = []
   ∧ message = Some "VITE_GEMINI_API_KEY is missing")
  ∨ (∃ req underlying,
       reqs = [req] ∧ service req = GenAI.Rejected underlying
       ∧ message = Some (JS.or_string underlying "Engine failure.")).
Proof.
  unfold callInsight, generateElectronicsInsight.
  destruct (JS.truthy_opt apiKey); simpl.
  - destruct (service _) as [t|u] eqn:Hs; simpl; [done|].
    intros [= <- <-]. right. by eexists _, _.
  - intros [= <- <-]. by left.
Qed.

Lemma or_string_idem (o : option string) (d : string) :
  JS.truthy d = true →
  JS.or_string (Some (JS.or_string o d)) d = JS.or_string o d.
Proof.
  intros Hd. destruct o as [[|a s]|]; simpl; try done; by rewrite Hd.
Qed.

(** C2: when the call of an accepted submit fails, the store that results
    holds the turns as they were once the user turn had been appended (no
    model turn is added), pending = false, and as error the message of the
    failure: the configuration message when the credential is missing,
    else the message of the service's rejection when it has a non-empty
    one, else "Engine failure.". *)
Theorem C2_failed_call_keeps_turns_and_records_error
    (apiKey : option string) (service : GenAI.Request → GenAI.Outcome)
    (render : AppState) (customPrompt customImage : option string)
    (now date now' date' : Z) (store store1 : AppState) (c : InsightCall)
    (message : option string) (reqs : list GenAI.Request) :
  handleSendMessage render customPrompt customImage now date store
  = (store1, Some c) →
  callInsight apiKey service c = (Thrown message, reqs) →
  messages (chatState store1)
  = messages (chatState store)
      ++ [displayMessage render customPrompt customImage now date]
  ∧ messages (chatState (handleSendMessage_settle (Thrown message) now' date' store1))
    = messages (chatState store1)
  ∧ isLoading (chatState (handleSendMessage_settle (Thrown message) now' date' store1))
    = false
  ∧ ((JS.truthy_opt apiKey = false
      ∧ error (chatState (handleSendMessage_settle (Thrown message) now' date' store1))
        = Some "VITE_GEMINI_API_KEY is missing")
     ∨ (∃ req underlying,
          service req = GenAI.Rejected underlying
          ∧ error (chatState (handleSendMessage_settle (Thrown message) now' date' store1))
            = Some (JS.or_string underlying "Engine failure."))).
Proof.
  unfold handleSendMessage.
  destruct (ignored render customPrompt customImage); [done|].
  intros [= <- <-] Hcall. simpl. repeat split.
  apply callInsight_thrown in Hcall
    as [(Hkey & _ & ->) | (req & underlying & _ & Hs & ->)].
  - by left.
  - right. exists req, underlying. split; [done|].
    by rewrite or_string_idem.
Qed.

Lemma C2_failed_call_keeps_turns_and_records_error_witness :
  ∃ store1 c,
    handleSendMessage (setInputText "My circuit isn't powering on" initialState)
      None None 1700000000000 1700000000001
      (setInputText "My circuit isn't powering on" initialState)
    = (store1, Some c)
    ∧ length (messages (chatState store1)) = 1%nat
    ∧ messages (chatState
                  (handleSendMessage_settle (Thrown (Some "rate limited"))
                     1700000000950 1700000000951 store1))
      = messages (chatState store1)
    ∧ isLoading (chatState
                   (handleSendMessage_settle (Thrown (Some "rate limited"))
                      1700000000950 1700000000951 store1))
      = false
    ∧ error (chatState
               (handleSendMessage_settle (Thrown (Some "rate limited"))
                  1700000000950 1700000000951 store1))
      = Some "rate limited".
Proof.
  eexists _, _. split; [reflexivity|].
  destruct (C2_failed_call_keeps_turns_and_records_error
              (Some "k") (λ _, GenAI.Rejected (Some "rate limited"))
              (setInputText "My circuit isn't powering on" initialState)
              None None 1700000000000 1700000000001
              1700000000950 1700000000951
              (setInputText "My circuit isn't powering on" initialState)
              _ _ (Some "rate limited") _ eq_refl eq_refl)
    as (H1 & H2 & H3 & H4).
  split; [by rewrite H1|]. split; [exact H2|]. split; [exact H3|].
  destruct H4 as [[Hk _] | (req & underlying & [= <-] & H4)].
  - discriminate Hk.
  - exact H4.
Defined.

(** X22: a submit, whether ignored or accepted, and the completion of a
    call, whether it succeeded or failed, leave the staged image as it is;
    a reset clears it, and of all other actions none but a failed file
    read turns a staged image into none; and so an accepted submit that
    gives no image of its own, made while an image is staged, passes the
    staged image to the insight client, whose request (when there is a
    credential) carries it before the prompt, while the turn stored for
    that submit shows no image. *)
Theorem staged_image_survives_submits (apiKey : option string) :
  (∀ w customPrompt customImage now date,
     selectedImage
       (store (perform apiKey (SendMessage customPrompt customImage now date) w))
     = selectedImage (store w))
  ∧ (∀ w i answer now date,
       selectedImage (store (perform apiKey (Completion i answer now date) w))
       = selectedImage (store w))
  ∧ (∀ w a img,
       selectedImage (store w) = Some img →
       selectedImage (store (perform apiKey a w)) = None →
       a = ResetChat ∨ isFailedRead a = true)
  ∧ (∀ w, selectedImage (store (perform apiKey ResetChat w)) = None)
  ∧ (∀ w customPrompt customImage now date img,
       selectedImage (store w) = Some img →
       JS.truthy img = true →
       JS.truthy_opt customImage = false →
       isLoading (chatState (store w)) = false →
       ∃ c m,
         outstanding (perform apiKey (SendMessage customPrompt customImage now date) w)
         = outstanding w ++ [c]
         ∧ call_currentImage c = Some img
         ∧ (∀ req,
              generateElectronicsInsight apiKey (call_prompt c) (call_history c)
                (call_skillLevel c) (call_currentImage c) = Awaits req →
              newTurn req
              = Some {| GenAI.role := "user";
                        GenAI.parts :=
                          [ GenAI.inlineData
                              {| GenAI.mimeType := "image/jpeg";
                                 GenAI.data := imageData img |};
                            GenAI.textPart (call_prompt c) ] |})
         ∧ last (messages
                   (chatState
                      (store (perform apiKey
                                (SendMessage customPrompt customImage now date) w))))
           = Some m
         ∧ image m = None).
Proof.
  assert (Hsend : ∀ render customPrompt customImage now date st,
            selectedImage
              (handleSendMessage render customPrompt customImage now date st).1
            = selectedImage st).
  { intros. unfold handleSendMessage. by destruct (ignored _ _ _). }
  assert (Hsettle : ∀ s now date st,
            selectedImage (handleSendMessage_settle s now date st)
            = selectedImage st).
  { intros. by destruct s. }
  split_and!.
  - intros. simpl. apply Hsend.
  - intros. simpl. destruct (outstanding w !! i); [apply Hsettle | done].
  - intros w a img Himg.
    destruct a as [cp ci n d|chosen|i r n d| | | |i o n d]; cbn [perform].
    + cbn [issue store]. rewrite Hsend. congruence.
    + destruct chosen; simpl; congruence.
    + destruct (readers w !! i) as [render|]; [|congruence].
      cbn [issue store]. unfold handleImageUpload. rewrite Hsend. simpl.
      destruct r; [congruence | by right].
    + by left.
    + simpl. congruence.
    + simpl. congruence.
    + destruct (outstanding w !! i); simpl; [rewrite Hsettle|]; congruence.
  - done.
  - intros w customPrompt customImage now date img Himg Htruthy Hci Hl.
    assert (imageToUse (store w) customImage = Some img) as Huse.
    { unfold imageToUse, JS.or_opt. by rewrite Hci. }
    assert (ignored (store w) customPrompt customImage = false) as Hacc.
    { unfold ignored. rewrite Huse, Hl. simpl. rewrite Htruthy.
      by rewrite andb_false_r. }
    exists (insightCall (store w) customPrompt customImage now date),
      (displayMessage (store w) customPrompt customImage now date).
    cbn [perform]. rewrite (handleSendMessage_accepted _ _ _ _ _ _ Hacc).
    unfold issue. cbn [store outstanding fst snd option_list chatState messages].
    assert (call_currentImage (insightCall (store w) customPrompt customImage now date)
            = Some img) as Hcur.
    { unfold insightCall. cbn [call_currentImage]. rewrite Huse.
      unfold JS.or_undefined, JS.or_opt. simpl. by rewrite Htruthy. }
    split_and!.
    + done.
    + done.
    + intros req [_ ->]%generateElectronicsInsight_awaits_inv.
      rewrite newTurn_buildRequest, Hcur. unfold currentParts, imageParts.
      by rewrite Htruthy.
    + apply last_snoc.
    + unfold displayMessage, userMessage. rewrite Hci.
      by destruct (JS.truthy_opt customPrompt).
Qed.

Lemma staged_image_survives_submits_witness :
  ∃ c m,
    outstanding
      (perform (Some "k") (SendMessage None None 1700000000000 1700000000001)
         stagedWorld)
    = outstanding stagedWorld ++ [c]
    ∧ call_currentImage c = Some "data:image/png;base64,QUJD"
    ∧ (∀ req,
         generateElectronicsInsight (Some "k") (call_prompt c) (call_history c)
           (call_skillLevel c) (call_currentImage c) = Awaits req →
         newTurn req
         = Some {| GenAI.role := "user";
                   GenAI.parts :=
                     [ GenAI.inlineData
                         {| GenAI.mimeType := "image/jpeg";
                            GenAI.data := imageData "data:image/png;base64,QUJD" |};
                       GenAI.textPart (call_prompt c) ] |})
    ∧ last (messages
              (chatState
                 (store (perform (Some "k")
                           (SendMessage None None 1700000000000 1700000000001)
                           stagedWorld))))
      = Some m
    ∧ image m = None.
Proof.
  exact (proj2 (proj2 (proj2 (proj2
           (staged_image_survives_submits (Some "k")))))
           stagedWorld None None 1700000000000 1700000000001
           "data:image/png;base64,QUJD" eq_refl eq_refl eq_refl eq_refl).
Defined.

(** ** Identifiers *)

Lemma collidingRun_chronological : chronological collidingRun.
Proof. unfold chronological. simpl. repeat constructor; lia. Qed.

Lemma regressingRun_chronological : chronological regressingRun.
Proof. unfold chronological. simpl. repeat constructor; lia. Qed.

(** C6, at a session the code admits: a question sent at 1700000000000,
    its answer arriving at 1700000000950 (so that the model turn gets the
    identifier of 1700000000951), and a second question sent at
    1700000000951.  The clock never runs backwards, the state is reachable,
    and the model turn and the second user turn carry the same identifier:
    the identifiers are not pairwise distinct. *)
Theorem C6_identifiers_collide :
  reachable (Some "k") (run (Some "k") collidingRun initialWorld)
  ∧ ids (chatState (store (run (Some "k") collidingRun initialWorld)))
    = ["1700000000000"; "1700000000951"; "1700000000951"]
  ∧ role <$> messages (chatState (store (run (Some "k") collidingRun initialWorld)))
    = [user; model; user]
  ∧ ¬ NoDup (ids (chatState (store (run (Some "k") collidingRun initialWorld)))).
Proof.
  split_and!.
  - exists collidingRun. split; [apply collidingRun_chronological | done].
  - vm_compute. reflexivity.
  - vm_compute. reflexivity.
  - assert (ids (chatState (store (run (Some "k") collidingRun initialWorld)))
            = ["1700000000000"; "1700000000951"; "1700000000951"]) as ->
      by (vm_compute; reflexivity).
    rewrite !NoDup_cons. intros (_ & Hnotin & _). apply Hnotin. left.
Qed.

(** When the second question is sent within the millisecond in which the
    answer arrived, the later turn gets the smaller identifier. *)
Lemma identifiers_regress :
  reachable (Some "k") (run (Some "k") regressingRun initialWorld)
  ∧ ids (chatState (store (run (Some "k") regressingRun initialWorld)))
    = pretty <$> [1700000000000; 1700000000951; 1700000000950].
Proof.
  split.
  - exists regressingRun. split; [apply regressingRun_chronological | done].
  - vm_compute. reflexivity.
Qed.

(** *** When the clock is read at least two milliseconds apart *)

Lemma increasingIds_weaken b b' c :
  b ≤ b' → increasingIds b c → increasingIds b' c.
Proof.
  intros Hb (ns & Hids & Hs & Hle). exists ns. split_and!; [done..|].
  eapply Forall_impl; [exact Hle|]. simpl. intros. lia.
Qed.

Lemma increasingIds_same b c c' :
  messages c' = messages c → increasingIds b c → increasingIds b c'.
Proof. unfold increasingIds, ids. by intros ->. Qed.

Lemma increasingIds_empty b c : messages c = [] → increasingIds b c.
Proof.
  intros Hm. exists []. unfold ids. rewrite Hm.
  split_and!; [done | constructor | constructor].
Qed.

Lemma increasingIds_snoc b b' n c c' m :
  increasingIds b c →
  b + 1 < n → n ≤ b' + 1 →
  messages c' = messages c ++ [m] → id m = pretty n →
  increasingIds b' c'.
Proof.
  intros (ns & Hids & Hs & Hle) Hlt Hn Hm Hid.
  exists (ns ++ [n]). unfold ids in *. rewrite Hm, !fmap_app, Hids. simpl.
  rewrite Hid. split_and!; [done | |].
  - apply StronglySorted_app_2; [|done|repeat constructor].
    intros x y Hx ->%list_elem_of_singleton.
    rewrite Forall_forall in Hle. specialize (Hle x Hx). simpl in Hle. lia.
  - apply Forall_app. split; [|by repeat constructor].
    eapply Forall_impl; [exact Hle|]. simpl. intros. lia.
Qed.

Lemma handleSendMessage_increasingIds render customPrompt customImage now date b st :
  increasingIds b (chatState st) → b + 2 ≤ now →
  increasingIds now
    (chatState (handleSendMessage render customPrompt customImage now date st).1).
Proof.
  intros Hinv Hnow. unfold handleSendMessage.
  destruct (ignored render customPrompt customImage); simpl.
  - apply (increasingIds_weaken b); [lia | done].
  - eapply (increasingIds_snoc b now now); [done | lia | lia | done |].
    unfold displayMessage. by destruct (JS.truthy_opt customPrompt).
Qed.

Lemma handleSendMessage_settle_increasingIds s now date b st :
  increasingIds b (chatState st) → b + 2 ≤ now →
  increasingIds now (chatState (handleSendMessage_settle s now date st)).
Proof.
  intros Hinv Hnow. destruct s as [aiResponse|message]; simpl.
  - by eapply (increasingIds_snoc b now (now + 1)); [done | lia | lia | done |].
  - apply (increasingIds_weaken b); [lia|]. by eapply increasingIds_same.
Qed.

(** One action keeps the identifiers increasing, if it reads the clock at
    least two milliseconds after the latest reading so far. *)
Lemma perform_increasingIds apiKey a b w :
  increasingIds b (chatState (store w)) →
  Forall (λ s, b + 2 ≤ s) (stamp a) →
  increasingIds (bump b a) (chatState (store (perform apiKey a w))).
Proof.
  intros Hinv Hst.
  destruct a as [cp ci n d|chosen|i r n d| | | |i o n d];
    unfold bump; cbn [stamp perform issue withStore store] in *.
  - rewrite Forall_singleton in Hst.
    by apply (handleSendMessage_increasingIds _ _ _ _ _ b).
  - by destruct chosen.
  - rewrite Forall_singleton in Hst.
    destruct (readers w !! i) as [render|]; cbn [issue store].
    + unfold handleImageUpload.
      apply (handleSendMessage_increasingIds _ _ _ _ _ b); [exact Hinv | done].
    + apply (increasingIds_weaken b); [lia | done].
  - by apply increasingIds_empty.
  - done.
  - done.
  - rewrite Forall_singleton in Hst. destruct (outstanding w !! i); cbn [store].
    + by apply (handleSendMessage_settle_increasingIds _ _ _ b).
    + apply (increasingIds_weaken b); [lia | done].
Qed.

Lemma run_increasingIds apiKey acts : ∀ b w,
  increasingIds b (chatState (store w)) →
  Forall (λ s, b + 2 ≤ s) (stamps acts) →
  spaced acts →
  ∃ b', increasingIds b' (chatState (store (run apiKey acts w))).
Proof.
  induction acts as [|a acts IH]; intros b w Hinv Hall Hsp.
  - by exists b.
  - unfold stamps, spaced in *. simpl in Hall, Hsp.
    apply Forall_app in Hall as [Ha Hrest].
    apply StronglySorted_app in Hsp as (Hcross & _ & Hsp).
    apply (IH (bump b a) (perform apiKey a w)).
    + by apply perform_increasingIds.
    + unfold bump. destruct (stamp a) as [|now l] eqn:Hstamp; [done|].
      apply Forall_forall. intros s Hs. apply (Hcross now s); [left | done].
    + done.
Qed.

Lemma StronglySorted_lt_NoDup (ns : list Z) : StronglySorted Z.lt ns → NoDup ns.
Proof.
  induction 1 as [|n ns _ IH Hall]; [constructor|].
  constructor; [|done]. intros Hin.
  rewrite Forall_forall in Hall. specialize (Hall n Hin). lia.
Qed.

(** In a session whose readings of [Date.now()] are at least two
    milliseconds apart, the identifiers are the decimal forms of strictly
    increasing numbers, and so pairwise distinct. *)
Theorem spaced_session_ids_increase apiKey acts :
  spaced acts →
  (∃ ns : list Z,
     ids (chatState (store (run apiKey acts initialWorld))) = pretty <$> ns
     ∧ StronglySorted Z.lt ns)
  ∧ NoDup (ids (chatState (store (run apiKey acts initialWorld)))).
Proof.
  intros Hsp.
  assert (∃ b, Forall (λ s, b + 2 ≤ s) (stamps acts)) as [b Hb].
  { unfold spaced in Hsp. destruct (stamps acts) as [|s0 l]; [by exists 0|].
    exists (s0 - 2). apply StronglySorted_cons in Hsp as [Hs0 _].
    constructor; [lia|]. eapply Forall_impl; [exact Hs0|]. simpl. intros. lia. }
  destruct (run_increasingIds apiKey acts b initialWorld) as (b' & ns & Hids & Hs & _);
    [by apply increasingIds_empty | done | done |].
  split; [by exists ns|].
  rewrite Hids. apply NoDup_fmap_2; [apply _|]. by apply StronglySorted_lt_NoDup.
Qed.

Lemma spaced_session_ids_increase_witness :
  NoDup (ids (chatState (store (run (Some "k")
           [ InputChange "My circuit isn't powering on";
             SendMessage None None 1700000000000 1700000000000;
             Completion 0 (GenAI.Fulfilled (Some "Check fuse F1."))
               1700000000950 1700000000950;
             InputChange "F1 is fine";
             SendMessage None None 1700000000952 1700000000952 ]
           initialWorld)))).
Proof.
  apply spaced_session_ids_increase.
  unfold spaced. simpl. repeat constructor; lia.
Defined.

(** ** Scenarios *)

(** A typed question answered by the service: two turns, the user's text
    as typed and the model's as answered, nothing pending, no error. *)
Example scenario_question_answered :
  let w := run (Some "k")
             [ InputChange "My circuit isn't powering on";
               SendMessage None None 1700000000000 1700000000001;
               Completion 0 (GenAI.Fulfilled (Some "Check fuse F1."))
                 1700000000950 1700000000951 ]
             initialWorld in
  (λ m, (role m, text m)) <$> messages (chatState (store w))
  = [ (user, "My circuit isn't powering on"); (model, "Check fuse F1.") ]
  ∧ isLoading (chatState (store w)) = false
  ∧ error (chatState (store w)) = None
  ∧ outstanding w = [].
Proof. vm_compute. done. Qed.

(** A response without text is answered with the fallback string. *)
Example scenario_no_text_in_response :
  generateElectronicsInsight_settle (GenAI.Fulfilled None)
  = Returned "No response generated.".
Proof. reflexivity. Qed.

(** Whenever a prompt is given as argument, and not only on an upload, the
    stored turn shows the upload text instead of the prompt. *)
Lemma custom_prompt_is_stored_as_upload_text
    render customPrompt customImage now date :
  JS.truthy_opt customPrompt = true →
  text (displayMessage render customPrompt customImage now date)
  = "📷 Image uploaded. Automated analysis in progress...".
Proof. unfold displayMessage. by intros ->. Qed.

(** * Further properties *)

(** ** The insight client: what it returns *)

(** X1: a call never ends with an empty answer nor with an empty error
    message, whatever the credential and the service do; so its completion
    either appends a model turn with a non-empty text, or leaves the turns
    and makes the error banner show. *)
Theorem insight_result_never_empty
    (apiKey : option string) (service : GenAI.Request → GenAI.Outcome)
    (c : InsightCall) (now date : Z) (st : AppState) :
  match (callInsight apiKey service c).1 with
  | Returned aiResponse => JS.truthy aiResponse = true
  | Thrown message => JS.truthy_opt message = true
  end
  ∧ ((∃ m, messages (chatState
                       (handleSendMessage_settle (callInsight apiKey service c).1
                          now date st))
           = messages (chatState st) ++ [m]
           ∧ role m = model ∧ JS.truthy (text m) = true)
     ∨ (messages (chatState
                    (handleSendMessage_settle (callInsight apiKey service c).1
                       now date st))
        = messages (chatState st)
        ∧ errorShown (handleSendMessage_settle (callInsight apiKey service c).1
                        now date st) = true)).
Proof.
  unfold callInsight, generateElectronicsInsight.
  destruct (JS.truthy_opt apiKey); simpl.
  - destruct (service _) as [[[|a t]|]|[[|a u]|]]; simpl; split; try done;
      try (left; eexists; split_and!; done); by right.
  - split; [done|]. by right.
Qed.

(** ** The insight client: the request *)

Lemma imageData_empty (img : string) : imageData img = "" → img = "".
Proof.
  unfold imageData.
  destruct (JS.split_comma img !! 1%nat) as [[|a s]|]; simpl; done.
Qed.

Lemma split_comma_commaFree (s : string) :
  commaFree s = true → JS.split_comma s = [s].
Proof.
  induction s as [|c s IH]; simpl; [done|].
  destruct (Ascii.eqb c ","); simpl; [done|].
  intros Hs. by rewrite (IH Hs).
Qed.

Lemma split_comma_header (h p : string) :
  commaFree h = true →
  JS.split_comma (h +:+ "," +:+ p) = h :: JS.split_comma p.
Proof.
  induction h as [|c h IH]; simpl; [done|].
  destruct (Ascii.eqb c ","); simpl; [done|].
  intros Hh. by rewrite (IH Hh).
Qed.

(** X2: the data sent for an image is the payload of its data URL: what
    follows the comma, when header and payload have no comma of their own
    and the payload is not empty; a string without a comma is sent whole;
    and for no image but the empty string is the data empty. *)
Theorem imageData_is_data_url_payload :
  (∀ header payload,
     commaFree header = true → commaFree payload = true → payload ≠ "" →
     imageData (header +:+ "," +:+ payload) = payload)
  ∧ (∀ img, commaFree img = true → imageData img = img)
  ∧ (∀ img, imageData img = "" ↔ img = "").
Proof.
  split_and!.
  - intros header payload Hh Hp Hne. unfold imageData.
    rewrite (split_comma_header _ _ Hh), (split_comma_commaFree _ Hp). simpl.
    by destruct payload.
  - intros img Hi. unfold imageData. by rewrite (split_comma_commaFree _ Hi).
  - intros img. split; [apply imageData_empty | by intros ->].
Qed.

Lemma imageData_is_data_url_payload_witness :
  imageData ("data:image/png;base64" +:+ "," +:+ "iVBORw0KGgo=") = "iVBORw0KGgo=".
Proof.
  apply (proj1 imageData_is_data_url_payload); [reflexivity | reflexivity | discriminate].
Defined.

Lemma historyContent_parts (msg : Message) :
  GenAI.parts (historyContent msg) = [GenAI.textPart (text msg)]
  ∧ JS.truthy_opt (image msg) = false
  ∨ ∃ img, image msg = Some img ∧ JS.truthy img = true
           ∧ GenAI.parts (historyContent msg)
             = [imagePart img; GenAI.textPart (text msg)].
Proof.
  unfold historyContent, imageParts. simpl.
  destruct (image msg) as [[|a i]|]; simpl; [by left | | by left].
  right. by eexists.
Qed.

(** X3: the request re-expresses the history turn by turn and in order:
    it has one content per prior turn and one more for the new turn; the
    content of a prior turn has that turn's role, ends with its text, and
    consists of the text alone when the turn has no image, and of the
    image part followed by the text when it has one. *)
Theorem request_re_expresses_history
    (prompt : string) (history : list Message) (level : SkillLevel)
    (currentImage : option string) :
  length (GenAI.contents (buildRequest prompt history level currentImage))
  = S (length history)
  ∧ ∀ (i : nat) (msg : Message),
      history !! i = Some msg →
      ∃ c, GenAI.contents (buildRequest prompt history level currentImage) !! i
           = Some c
        ∧ GenAI.role c = match role msg with user => "user" | model => "model" end
        ∧ last (GenAI.parts c) = Some (GenAI.textPart (text msg))
        ∧ (JS.truthy_opt (image msg) = false →
           GenAI.parts c = [GenAI.textPart (text msg)])
        ∧ (∀ img, image msg = Some img → JS.truthy img = true →
           GenAI.parts c
           = [ GenAI.inlineData
                 {| GenAI.mimeType := "image/jpeg";
                    GenAI.data := imageData img |};
               GenAI.textPart (text msg) ]).
Proof.
  split.
  - simpl. rewrite length_app, length_fmap. simpl. lia.
  - intros i msg Hi. exists (historyContent msg). split.
    { simpl. rewrite lookup_app_l.
      - by rewrite list_lookup_fmap, Hi.
      - rewrite length_fmap. by eapply lookup_lt_Some. }
    split; [done|].
    destruct (historyContent_parts msg) as [[Hp Hf] | (img & Himg & Ht & Hp)];
      rewrite Hp; split_and!; try done.
    + intros img Himg Ht. rewrite Himg in Hf. simpl in Hf. congruence.
    + rewrite Himg. simpl. congruence.
    + intros img' Himg'. rewrite Himg in Himg'. by intros; simplify_eq.
Qed.

Lemma request_re_expresses_history_witness :
  ∃ c, GenAI.contents
         (buildRequest "And R2?"
            [ {| id := "1700000000000"; role := user; text := "Why is R1 hot?";
                 image := Some "data:image/png;base64,QUJD";
                 timestamp := 1700000000000 |} ]
            BEGINNER None) !! 0%nat
       = Some c
    ∧ GenAI.role c = "user"
    ∧ last (GenAI.parts c) = Some (GenAI.textPart "Why is R1 hot?").
Proof.
  destruct (proj2 (request_re_expresses_history "And R2?"
              [ {| id := "1700000000000"; role := user; text := "Why is R1 hot?";
                   image := Some "data:image/png;base64,QUJD";
                   timestamp := 1700000000000 |} ]
              BEGINNER None) 0%nat _ eq_refl) as (c & H1 & H2 & H3 & _).
  exists c. split; [exact H1|]. split; [exact H2 | exact H3].
Defined.

Lemma inline_of_parts (o : option string) (t : string) (d : GenAI.InlineData) :
  d ∈ (p ← imageParts o ++ [GenAI.textPart t];
       match p with
       | GenAI.inlineData d => [d]
       | GenAI.textPart _ => []
       end) →
  ∃ img, o = Some img ∧ JS.truthy img = true
         ∧ d = {| GenAI.mimeType := "image/jpeg"; GenAI.data := imageData img |}.
Proof.
  unfold imageParts. destruct o as [img|]; simpl.
  - destruct (JS.truthy img) eqn:Ht; simpl.
    + intros ->%list_elem_of_singleton. by exists img.
    + by intros ?%elem_of_nil.
  - by intros ?%elem_of_nil.
Qed.

(** X4: every image that a request carries, whether it comes from a prior
    turn or from the new one, is declared as image/jpeg, whatever its data
    URL says, and its data is not empty. *)
Theorem request_images_are_declared_jpeg
    (prompt : string) (history : list Message) (level : SkillLevel)
    (currentImage : option string) (d : GenAI.InlineData) :
  d ∈ inlineParts (buildRequest prompt history level currentImage) →
  GenAI.mimeType d = "image/jpeg"
  ∧ GenAI.data d ≠ ""
  ∧ ∃ img, GenAI.data d = imageData img ∧ JS.truthy img = true
           ∧ (currentImage = Some img
              ∨ ∃ msg, msg ∈ history ∧ image msg = Some img).
Proof.
  unfold inlineParts. simpl.
  intros (c & Hd & Hc)%list_elem_of_bind.
  assert (∃ o t, GenAI.parts c = imageParts o ++ [GenAI.textPart t]
                 ∧ (o = currentImage ∨ ∃ msg, msg ∈ history ∧ image msg = o))
    as (o & t & Hparts & Ho).
  { apply elem_of_app in Hc as [(msg & -> & Hmsg)%list_elem_of_fmap | ->%list_elem_of_singleton].
    - exists (image msg), (text msg). split; [done|]. right. by exists msg.
    - exists currentImage, prompt. split; [done|]. by left. }
  rewrite Hparts in Hd. apply inline_of_parts in Hd as (img & -> & Ht & ->).
  simpl. split; [done|]. split.
  - intros He%imageData_empty. by rewrite He in Ht.
  - exists img. split_and!; [done..|].
    destruct Ho as [<- | (msg & Hin & Himg)]; [by left|]. right. by exists msg.
Qed.

Lemma request_images_are_declared_jpeg_witness :
  GenAI.mimeType
    {| GenAI.mimeType := "image/jpeg"; GenAI.data := "iVBORw0KGgo=" |}
  = "image/jpeg"
  ∧ GenAI.data
      {| GenAI.mimeType := "image/jpeg"; GenAI.data := "iVBORw0KGgo=" |} ≠ ""
  ∧ ∃ img, GenAI.data
             {| GenAI.mimeType := "image/jpeg"; GenAI.data := "iVBORw0KGgo=" |}
           = imageData img
      ∧ JS.truthy img = true
      ∧ (Some "data:image/png;base64,iVBORw0KGgo=" = Some img
         ∨ ∃ msg, msg ∈ [] ∧ image msg = Some img).
Proof.
  apply (request_images_are_declared_jpeg "What is U3?" [] ADVANCED
           (Some "data:image/png;base64,iVBORw0KGgo=")).
  vm_compute. left.
Defined.

(** X5: the skill level reaches the service: the requests built for two
    different skill levels differ in their system instruction, and in
    nothing else. *)
Theorem request_depends_on_skill_level
    (prompt : string) (history : list Message) (l1 l2 : SkillLevel)
    (currentImage : option string) :
  (GenAI.systemInstruction
     (GenAI.config (buildRequest prompt history l1 currentImage))
   = GenAI.systemInstruction
       (GenAI.config (buildRequest prompt history l2 currentImage))
   ↔ l1 = l2)
  ∧ GenAI.model (buildRequest prompt history l1 currentImage)
    = GenAI.model (buildRequest prompt history l2 currentImage)
  ∧ GenAI.contents (buildRequest prompt history l1 currentImage)
    = GenAI.contents (buildRequest prompt history l2 currentImage)
  ∧ GenAI.temperature (GenAI.config (buildRequest prompt history l1 currentImage))
    = GenAI.temperature (GenAI.config (buildRequest prompt history l2 currentImage))
  ∧ GenAI.topP (GenAI.config (buildRequest prompt history l1 currentImage))
    = GenAI.topP (GenAI.config (buildRequest prompt history l2 currentImage)).
Proof.
  split_and!; try done. simpl. split; [|by intros ->].
  intros H. apply String.eqb_eq in H.
  destruct l1, l2; try done; vm_compute in H; discriminate.
Qed.

(** ** The conversation store: what is accepted *)

Lemma stripOne_blank (c : ascii) (s : string) :
  asciiBlank c = true → JS.stripOne JS.whiteSpace (String c s) = Some s.
Proof.
  destruct c as [[] [] [] [] [] [] [] []]; intros H; vm_compute in H;
    try discriminate H; reflexivity.
Qed.

Lemma stripLeading_allBlank (s : string) : ∀ n : nat,
  allBlank s = true → (String.length s ≤ n)%nat →
  JS.stripLeading JS.whiteSpace n s = "".
Proof.
  induction s as [|c s IH]; intros n Hs Hn.
  - by destruct n.
  - simpl in Hs, Hn. apply andb_true_iff in Hs as [Hc Hs].
    destruct n as [|n]; [lia|].
    cbn [JS.stripLeading]. rewrite (stripOne_blank _ _ Hc).
    apply IH; [done | lia].
Qed.

Lemma trim_allBlank (s : string) : allBlank s = true → JS.trim s = "".
Proof.
  intros Hs. unfold JS.trim, JS.trimStart.
  by rewrite (stripLeading_allBlank s (String.length s) Hs).
Qed.

(** X6: a submit whose text consists of blanks only (spaces, tabs, line
    breaks) and that has no image in use is ignored like an empty one: the
    store is unchanged and no call is made. *)
Theorem blank_text_without_image_is_ignored
    (render : AppState) (customPrompt customImage : option string)
    (now date : Z) (store : AppState) :
  allBlank (promptToUse render customPrompt) = true →
  JS.truthy_opt (imageToUse render customImage) = false →
  handleSendMessage render customPrompt customImage now date store
  = (store, None).
Proof.
  intros Hb Hi. apply handleSendMessage_ignored. unfold ignored.
  by rewrite (trim_allBlank _ Hb), Hi.
Qed.

Lemma blank_text_without_image_is_ignored_witness :
  handleSendMessage (setInputText "   " initialState) None None
    1700000000000 1700000000001 (setInputText "   " initialState)
  = (setInputText "   " initialState, None).
Proof.
  apply (blank_text_without_image_is_ignored (setInputText "   " initialState)
           None None); reflexivity.
Defined.

(** X7: the send button is disabled exactly when a click on it would be
    ignored: a click on the disabled button changes nothing, and a click
    on the enabled one is accepted, makes one call and appends one
    turn. *)
Theorem send_button_disabled_iff_click_ignored
    (st : AppState) (now date : Z) :
  sendDisabled st = ignored st None None
  ∧ (sendDisabled st = true →
     handleSendMessage st None None now date st = (st, None))
  ∧ (sendDisabled st = false →
     ∃ st' c m,
       handleSendMessage st None None now date st = (st', Some c)
       ∧ messages (chatState st') = messages (chatState st) ++ [m]
       ∧ isLoading (chatState st') = true
       ∧ sendDisabled st' = true).
Proof.
  assert (sendDisabled st = ignored st None None) as Heq by done.
  split; [done|]. rewrite Heq. split.
  - apply handleSendMessage_ignored.
  - intros Hacc. eexists _, _, _.
    split; [by apply handleSendMessage_accepted|].
    split_and!; [done | done |].
    unfold sendDisabled. simpl. apply orb_true_r.
Qed.

Lemma send_button_disabled_iff_click_ignored_witness :
  ∃ st' c m,
    handleSendMessage (setInputText "Why is R1 hot?" initialState) None None
      1700000000000 1700000000001 (setInputText "Why is R1 hot?" initialState)
    = (st', Some c)
    ∧ messages (chatState st')
      = messages (chatState (setInputText "Why is R1 hot?" initialState)) ++ [m]
    ∧ isLoading (chatState st') = true
    ∧ sendDisabled st' = true.
Proof.
  apply (proj2 (proj2 (send_button_disabled_iff_click_ignored
                         (setInputText "Why is R1 hot?" initialState)
                         1700000000000 1700000000001))).
  reflexivity.
Defined.

Lemma STARTER_QUESTIONS_usable :
  Forall (λ q, JS.truthy q = true ∧ JS.truthy (JS.trim q) = true
               ∧ q ≠ DISPLAY_TEXT)
    STARTER_QUESTIONS.
Proof. repeat constructor; try (vm_compute; reflexivity); discriminate. Qed.

(** X8: a click on a starter question, when the render shows no pending
    request, is accepted; the question is the prompt given to the insight
    client, but the turn stored for it shows the upload notice instead of
    the question, and no image. *)
Theorem starter_question_is_sent_but_not_shown
    (render : AppState) (q : string) (now date : Z) (store : AppState) :
  q ∈ STARTER_QUESTIONS →
  isLoading (chatState render) = false →
  ∃ m c store',
    handleSendMessage render (Some q) None now date store = (store', Some c)
    ∧ messages (chatState store') = messages (chatState store) ++ [m]
    ∧ call_prompt c = q
    ∧ text m = "📷 Image uploaded. Automated analysis in progress..."
    ∧ text m ≠ q
    ∧ image m = None
    ∧ startersShown store' = false.
Proof.
  intros Hq Hl.
  pose proof STARTER_QUESTIONS_usable as Hall. rewrite Forall_forall in Hall.
  destruct (Hall q Hq) as (Ht & Hb & Hne).
  assert (promptToUse render (Some q) = q) as Hprompt.
  { unfold promptToUse. simpl. by rewrite Ht. }
  assert (JS.truthy_opt (Some q) = true) as Hcp by done.
  assert (ignored render (Some q) None = false) as Hacc.
  { unfold ignored. by rewrite Hprompt, Hb, Hl. }
  eexists _, _, _. split; [by apply handleSendMessage_accepted|].
  unfold insightCall, displayMessage, userMessage. rewrite Hcp, Hprompt.
  cbn [chatState messages call_prompt text image].
  split_and!; try done.
  - simpl. by rewrite Ht.
  - unfold startersShown. simpl. by destruct (messages (chatState store)).
Qed.

Lemma starter_question_is_sent_but_not_shown_witness :
  ∃ m c store',
    handleSendMessage initialState
      (Some "What are the best practices for safely probing a live circuit to avoid shorting pins?")
      None 1700000000000 1700000000001 initialState
    = (store', Some c)
    ∧ messages (chatState store') = messages (chatState initialState) ++ [m]
    ∧ call_prompt c
      = "What are the best practices for safely probing a live circuit to avoid shorting pins?"
    ∧ text m = "📷 Image uploaded. Automated analysis in progress..."
    ∧ text m
      ≠ "What are the best practices for safely probing a live circuit to avoid shorting pins?"
    ∧ image m = None
    ∧ startersShown store' = false.
Proof.
  apply (starter_question_is_sent_but_not_shown initialState
           "What are the best practices for safely probing a live circuit to avoid shorting pins?"
           1700000000000 1700000000001 initialState); [|reflexivity].
  unfold STARTER_QUESTIONS. do 2 right. left.
Defined.

(** ** The conversation store: round trips *)

(** X9: an accepted submit made when no call is outstanding, followed by
    the service's answer, adds exactly two turns: the user turn and then a
    model turn whose text is the answer (or "No response generated." when
    the answer has no text) and whose identifier is the reading of the
    clock at completion plus one; nothing is pending, no error is shown,
    the input is empty and no call is outstanding. *)
Theorem answered_submit_adds_two_turns
    (apiKey : option string) (w : World)
    (customPrompt customImage : option string) (now date now' date' : Z)
    (answer : option string) :
  JS.truthy_opt apiKey = true →
  outstanding w = [] →
  ignored (store w) customPrompt customImage = false →
  let w' := perform apiKey (Completion 0 (GenAI.Fulfilled answer) now' date')
              (perform apiKey (SendMessage customPrompt customImage now date) w) in
  messages (chatState (store w'))
  = messages (chatState (store w))
      ++ [ displayMessage (store w) customPrompt customImage now date;
           {| id := pretty (now' + 1);
              role := model;
              text := JS.or_string answer "No response generated.";
              image := None;
              timestamp := date' |} ]
  ∧ isLoading (chatState (store w')) = false
  ∧ error (chatState (store w')) = None
  ∧ inputText (store w') = ""
  ∧ outstanding w' = [].
Proof.
  intros Hkey Hout Hacc. cbn [perform].
  rewrite (handleSendMessage_accepted _ _ _ _ _ _ Hacc).
  unfold issue. cbn [fst snd option_list store outstanding]. rewrite Hout.
  cbn [app lookup list_lookup]. unfold callInsight, generateElectronicsInsight.
  rewrite Hkey. simpl. by rewrite <- app_assoc.
Qed.

Lemma answered_submit_adds_two_turns_witness :
  length
    (messages
       (chatState
          (store
             (perform (Some "k")
                (Completion 0 (GenAI.Fulfilled (Some "Check fuse F1."))
                   1700000000950 1700000000951)
                (perform (Some "k")
                   (SendMessage None None 1700000000000 1700000000001)
                   stagedWorld)))))
  = 2%nat.
Proof.
  rewrite (proj1 (answered_submit_adds_two_turns (Some "k") stagedWorld None None
                    1700000000000 1700000000001 1700000000950 1700000000951
                    (Some "Check fuse F1.") eq_refl eq_refl eq_refl)).
  reflexivity.
Defined.

(** ** Uploads *)

(** X10: an upload made while the render shows a pending request replaces
    the staged image and does nothing else: no turn, no call, and the
    pending flag and the error stay. *)
Theorem upload_while_pending_only_stages
    (render : AppState) (base64 : string) (now date : Z) (store : AppState) :
  isLoading (chatState render) = true →
  handleImageUpload render (Some base64) now date store
  = ( {| chatState := chatState store;
         inputText := inputText store;
         selectedImage := Some base64;
         skillLevel := skillLevel store |},
      None ).
Proof.
  intros Hl. unfold handleImageUpload.
  rewrite handleSendMessage_ignored; [done|].
  unfold ignored. rewrite Hl. apply orb_true_r.
Qed.

Lemma upload_while_pending_only_stages_witness :
  handleImageUpload
    (setChatState (λ c, {| messages := messages c; isLoading := true;
                           error := error c |}) initialState)
    (Some "data:image/png;base64,QUJD") 1700000000000 1700000000001
    (setChatState (λ c, {| messages := messages c; isLoading := true;
                           error := error c |}) initialState)
  = ( {| chatState := {| messages := []; isLoading := true; error := None |};
         inputText := "";
         selectedImage := Some "data:image/png;base64,QUJD";
         skillLevel := INTERMEDIATE |},
      None ).
Proof.
  exact (upload_while_pending_only_stages
           (setChatState (λ c, {| messages := messages c; isLoading := true;
                                  error := error c |}) initialState)
           "data:image/png;base64,QUJD" 1700000000000 1700000000001
           (setChatState (λ c, {| messages := messages c; isLoading := true;
                                  error := error c |}) initialState)
           eq_refl).
Defined.

(** X11: an accepted upload of a non-empty data URL stages the image,
    stores it in the appended user turn, and passes it to the insight
    client, whose request (when there is a credential) carries its payload
    before the fixed prompt. *)
Theorem accepted_upload_carries_image
    (apiKey : option string) (render : AppState) (base64 : string)
    (now date : Z) (store : AppState) :
  JS.truthy base64 = true →
  isLoading (chatState render) = false →
  ∃ m c store',
    handleImageUpload render (Some base64) now date store = (store', Some c)
    ∧ selectedImage store' = Some base64
    ∧ messages (chatState store') = messages (chatState store) ++ [m]
    ∧ role m = user
    ∧ image m = Some base64
    ∧ id m = pretty now
    ∧ call_currentImage c = Some base64
    ∧ (∀ req,
         generateElectronicsInsight apiKey (call_prompt c) (call_history c)
           (call_skillLevel c) (call_currentImage c) = Awaits req →
         newTurn req
         = Some {| GenAI.role := "user";
                   GenAI.parts :=
                     [ GenAI.inlineData
                         {| GenAI.mimeType := "image/jpeg";
                            GenAI.data := imageData base64 |};
                       GenAI.textPart
                         "Initiate full Safety Check and Component Identification. Be concise for mobile." ] |}).
Proof.
  intros Ht Hl.
  assert (ignored render (Some UPLOAD_PROMPT) (Some base64) = false) as Hacc.
  { unfold ignored. rewrite Hl, orb_false_r.
    change (promptToUse render (Some UPLOAD_PROMPT)) with UPLOAD_PROMPT.
    by rewrite UPLOAD_PROMPT_not_blank. }
  assert (imageToUse render (Some base64) = Some base64) as Huse.
  { unfold imageToUse, JS.or_opt. simpl. by rewrite Ht. }
  assert (JS.or_undefined (Some base64) = Some base64) as Hor.
  { unfold JS.or_undefined, JS.or_opt. simpl. by rewrite Ht. }
  eexists _, _, _. split.
  { unfold handleImageUpload. by apply handleSendMessage_accepted. }
  unfold insightCall, displayMessage, userMessage.
  cbn [JS.truthy_opt]. rewrite Ht, Huse, Hor.
  cbn [selectedImage chatState messages role image id call_prompt call_history
       call_skillLevel call_currentImage text].
  split_and!; try done.
  intros req [_ ->]%generateElectronicsInsight_awaits_inv.
  rewrite newTurn_buildRequest. unfold currentParts, imageParts. by rewrite Ht.
Qed.

Lemma accepted_upload_carries_image_witness :
  ∃ m c store',
    handleImageUpload initialState (Some "data:image/png;base64,QUJD")
      1700000000000 1700000000001 initialState
    = (store', Some c)
    ∧ selectedImage store' = Some "data:image/png;base64,QUJD"
    ∧ messages (chatState store') = messages (chatState initialState) ++ [m]
    ∧ role m = user
    ∧ image m = Some "data:image/png;base64,QUJD"
    ∧ id m = pretty 1700000000000
    ∧ call_currentImage c = Some "data:image/png;base64,QUJD"
    ∧ (∀ req,
         generateElectronicsInsight (Some "k") (call_prompt c) (call_history c)
           (call_skillLevel c) (call_currentImage c) = Awaits req →
         newTurn req
         = Some {| GenAI.role := "user";
                   GenAI.parts :=
                     [ GenAI.inlineData
                         {| GenAI.mimeType := "image/jpeg";
                            GenAI.data := imageData "data:image/png;base64,QUJD" |};
                       GenAI.textPart
                         "Initiate full Safety Check and Component Identification. Be concise for mobile." ] |}).
Proof.
  exact (accepted_upload_carries_image (Some "k") initialState
           "data:image/png;base64,QUJD" 1700000000000 1700000000001
           initialState eq_refl eq_refl).
Defined.

(** ** Resets and late completions *)

(** X12: a reset does not cancel an outstanding call, and the completion
    of such a call is applied to the conversation that replaced the old
    one: after reset and answer the conversation consists of the model
    turn alone, with no user turn before it; after reset and failure it is
    empty and shows the error. *)
Theorem completion_after_reset_is_applied
    (apiKey : option string) (w : World) (i : nat) (c : InsightCall)
    (now date : Z) :
  JS.truthy_opt apiKey = true →
  outstanding w !! i = Some c →
  outstanding (perform apiKey ResetChat w) = outstanding w
  ∧ (∀ answer,
       messages
         (chatState
            (store (perform apiKey (Completion i (GenAI.Fulfilled answer) now date)
                      (perform apiKey ResetChat w))))
       = [ {| id := pretty (now + 1);
              role := model;
              text := JS.or_string answer "No response generated.";
              image := None;
              timestamp := date |} ])
  ∧ (∀ underlying,
       chatState
         (store (perform apiKey (Completion i (GenAI.Rejected underlying) now date)
                   (perform apiKey ResetChat w)))
       = {| messages := [];
            isLoading := false;
            error := Some (JS.or_string underlying "Engine failure.") |}).
Proof.
  intros Hkey Hc. split; [done|].
  split; intros x; cbn [perform withStore store outstanding]; rewrite Hc;
    unfold callInsight, generateElectronicsInsight; rewrite Hkey; simpl;
    [done|].
  by destruct x as [[|a u]|].
Qed.

Lemma completion_after_reset_is_applied_witness :
  role <$> messages
    (chatState
       (store
          (perform (Some "k")
             (Completion 0 (GenAI.Fulfilled (Some "Check fuse F1."))
                1700000000950 1700000000951)
             (perform (Some "k") ResetChat
                (perform (Some "k")
                   (SendMessage None None 1700000000000 1700000000001)
                   stagedWorld)))))
  = [model].
Proof.
  rewrite (proj1 (proj2 (completion_after_reset_is_applied (Some "k")
             (perform (Some "k")
                (SendMessage None None 1700000000000 1700000000001) stagedWorld)
             0 _ 1700000000950 1700000000951 eq_refl eq_refl))).
  reflexivity.
Defined.

(** X13: a reset keeps the typed input and the skill level, leaves the
    outstanding calls outstanding and lowers the pending flag; so a typed
    question sent right after a reset is accepted with an empty history,
    in addition to whatever calls were outstanding before. *)
Theorem reset_reopens_gate_without_cancelling
    (apiKey : option string) (w : World) (now date : Z) :
  JS.truthy (JS.trim (inputText (store w))) = true →
  inputText (store (perform apiKey ResetChat w)) = inputText (store w)
  ∧ skillLevel (store (perform apiKey ResetChat w)) = skillLevel (store w)
  ∧ ∃ c m,
      outstanding
        (perform apiKey (SendMessage None None now date)
           (perform apiKey ResetChat w))
      = outstanding w ++ [c]
      ∧ call_history c = []
      ∧ call_prompt c = inputText (store w)
      ∧ call_currentImage c = None
      ∧ messages
          (chatState
             (store (perform apiKey (SendMessage None None now date)
                       (perform apiKey ResetChat w))))
        = [m]
      ∧ text m = inputText (store w).
Proof.
  intros Ht. split; [done|]. split; [done|].
  assert (JS.truthy (inputText (store w)) = true) as Hne.
  { destruct (inputText (store w)); [by vm_compute in Ht | done]. }
  assert (ignored (resetChat (store w)) None None = false) as Hacc.
  { unfold ignored, promptToUse. simpl. by rewrite Ht. }
  cbn [perform withStore store outstanding].
  rewrite (handleSendMessage_accepted _ _ _ _ _ _ Hacc).
  eexists _, _. unfold issue. cbn [fst snd option_list store outstanding].
  split; [reflexivity|].
  unfold insightCall, displayMessage, userMessage, promptToUse. simpl.
  by rewrite Hne.
Qed.

Lemma reset_reopens_gate_without_cancelling_witness :
  ∃ c m,
    outstanding
      (perform (Some "k") (SendMessage None None 1700000000500 1700000000501)
         (perform (Some "k") ResetChat
            (perform (Some "k") (InputChange "And R2?")
               (perform (Some "k")
                  (SendMessage None None 1700000000000 1700000000001)
                  stagedWorld))))
    = outstanding
        (perform (Some "k") (InputChange "And R2?")
           (perform (Some "k")
              (SendMessage None None 1700000000000 1700000000001)
              stagedWorld))
        ++ [c]
    ∧ call_history c = []
    ∧ call_prompt c = "And R2?"
    ∧ call_currentImage c = None
    ∧ messages
        (chatState
           (store
              (perform (Some "k")
                 (SendMessage None None 1700000000500 1700000000501)
                 (perform (Some "k") ResetChat
                    (perform (Some "k") (InputChange "And R2?")
                       (perform (Some "k")
                          (SendMessage None None 1700000000000 1700000000001)
                          stagedWorld))))))
      = [m]
    ∧ text m = "And R2?".
Proof.
  exact (proj2 (proj2 (reset_reopens_gate_without_cancelling (Some "k")
           (perform (Some "k") (InputChange "And R2?")
              (perform (Some "k")
                 (SendMessage None None 1700000000000 1700000000001)
                 stagedWorld))
           1700000000500 1700000000501 eq_refl))).
Defined.

(** ** Invariants of a session *)

Lemma run_cons apiKey a acts w :
  run apiKey (a :: acts) w = run apiKey acts (perform apiKey a w).
Proof. done. Qed.

Lemma ignored_false_idle render customPrompt customImage :
  ignored render customPrompt customImage = false →
  isLoading (chatState render) = false.
Proof. unfold ignored. by intros [_ ?]%orb_false_iff. Qed.

Lemma displayMessage_role render customPrompt customImage now date :
  role (displayMessage render customPrompt customImage now date) = user.
Proof. unfold displayMessage. by destruct (JS.truthy_opt customPrompt). Qed.

Lemma head_snoc_user (l : list Message) (x : Message) :
  role x = user →
  (∀ m, head l = Some m → role m = user) →
  ∀ m, head (l ++ [x]) = Some m → role m = user.
Proof.
  intros Hx Hl m. destruct l as [|y l]; simpl.
  - by intros [= <-].
  - apply Hl.
Qed.

(** *** With fresh reads: the gate *)

(** A call of a handler whose render shows the conversation state of the
    store keeps the gate, whatever it does to the rest of the store. *)
Lemma handleSendMessage_gated render st' customPrompt customImage now date w w0 :
  chatState render = chatState (store w) →
  chatState st' = chatState (store w) →
  outstanding w0 = outstanding w →
  gated w →
  gated (issue (handleSendMessage render customPrompt customImage now date st') w0).
Proof.
  intros Hr Hs Ho [Hgate Hhead]. unfold handleSendMessage.
  destruct (ignored render customPrompt customImage) eqn:Hig.
  - unfold issue, gated. simpl. by rewrite app_nil_r, Ho, Hs.
  - apply ignored_false_idle in Hig. rewrite Hr in Hig.
    destruct (outstanding w) as [|c [|c' out]] eqn:Hout;
      [| destruct Hgate; congruence | done].
    unfold issue, gated. simpl. rewrite Ho, Hs. simpl. split.
    + split; [done|]. eexists. split; [by rewrite Hr|].
      apply displayMessage_role.
    + apply head_snoc_user; [apply displayMessage_role | done].
Qed.

(** Every action but the reset keeps the gate, if it is not the end of a
    read whose render is out of date. *)
Lemma perform_gated apiKey a w :
  isReset a = false → freshRead a w → gated w → gated (perform apiKey a w).
Proof.
  intros Ha Hf Hg.
  destruct a as [cp ci n d|chosen|i r n d| | | |i o n d]; cbn [perform].
  - by apply (handleSendMessage_gated _ _ _ _ _ _ w).
  - destruct chosen; exact Hg.
  - simpl in Hf. destruct (readers w !! i) as [render|]; [|exact Hg].
    unfold handleImageUpload.
    by apply (handleSendMessage_gated _ _ _ _ _ _ w).
  - discriminate Ha.
  - exact Hg.
  - exact Hg.
  - destruct (outstanding w !! i) as [c|] eqn:Hc; [|exact Hg].
    destruct Hg as [Hgate Hhead].
    destruct (outstanding w) as [|c0 [|c' out]] eqn:Hout; [done | | done].
    destruct i as [|i]; [|done]. simpl in Hc. injection Hc as ->.
    destruct Hgate as (Hl & m & Hm & Hrole).
    destruct (callInsight apiKey (λ _, o) c).1 as [aiResponse|message];
      unfold gated; simpl.
    + split; [done|]. intros m0 H0. apply Hhead.
      rewrite Hm in H0 |- *. by destruct (call_history c).
    + done.
Qed.

Lemma run_gated apiKey acts : ∀ w,
  noReset acts = true → freshReads apiKey acts w → gated w →
  gated (run apiKey acts w).
Proof.
  induction acts as [|a acts IH]; intros w Hn Hf Hg; [done|].
  simpl in Hn. apply andb_true_iff in Hn as [Ha Hn]. destruct Hf as [Hfa Hf].
  rewrite run_cons. apply IH; [done | done |].
  apply perform_gated; [|done|done]. by destruct (isReset a).
Qed.

Lemma initialWorld_gated : gated initialWorld.
Proof. by split. Qed.

(** X14: in a session without reset in which every file read ends while
    the conversation state is still the one of the render in which the
    file was picked, at most one call is outstanding at any time, and the
    pending flag is raised exactly while one is. *)
Theorem one_call_at_a_time (apiKey : option string) (acts : list Action) :
  noReset acts = true →
  freshReads apiKey acts initialWorld →
  (length (outstanding (run apiKey acts initialWorld)) ≤ 1)%nat
  ∧ (isLoading (chatState (store (run apiKey acts initialWorld))) = true
     ↔ outstanding (run apiKey acts initialWorld) ≠ []).
Proof.
  intros Hn Hf.
  destruct (run_gated apiKey acts initialWorld Hn Hf initialWorld_gated) as [Hg _].
  destruct (outstanding (run apiKey acts initialWorld)) as [|c [|c' out]].
  - split; [simpl; lia|]. rewrite Hg. split; done.
  - destruct Hg as [Hl _]. split; [simpl; lia|]. by rewrite Hl.
  - done.
Qed.

Lemma failedRead_before_fresh : freshReads (Some "k") failedRead_before initialWorld.
Proof. vm_compute. repeat split. Defined.

Lemma collidingRun_fresh : freshReads (Some "k") collidingRun initialWorld.
Proof. vm_compute. repeat split. Defined.

Lemma one_call_at_a_time_witness :
  (length (outstanding (run (Some "k") failedRead_before initialWorld)) ≤ 1)%nat
  ∧ (isLoading (chatState (store (run (Some "k") failedRead_before initialWorld)))
     = true
     ↔ outstanding (run (Some "k") failedRead_before initialWorld) ≠ []).
Proof.
  exact (one_call_at_a_time (Some "k") failedRead_before eq_refl
           failedRead_before_fresh).
Defined.

(** X15: in a session without reset in which every file read ends while
    the conversation state is still the one of the render in which the
    file was picked, while a call is outstanding the conversation is
    exactly the history of that call followed by one user turn: nothing is
    appended between a submit and its completion. *)
Theorem pending_conversation_is_history_and_turn
    (apiKey : option string) (acts : list Action) (c : InsightCall) :
  noReset acts = true →
  freshReads apiKey acts initialWorld →
  c ∈ outstanding (run apiKey acts initialWorld) →
  ∃ m, messages (chatState (store (run apiKey acts initialWorld)))
       = call_history c ++ [m]
    ∧ role m = user.
Proof.
  intros Hn Hf Hc.
  destruct (run_gated apiKey acts initialWorld Hn Hf initialWorld_gated) as [Hg _].
  destruct (outstanding (run apiKey acts initialWorld)) as [|c0 [|c' out]].
  - by apply elem_of_nil in Hc.
  - apply list_elem_of_singleton in Hc as ->. by destruct Hg.
  - done.
Qed.

Lemma pending_conversation_is_history_and_turn_witness :
  ∃ m, messages (chatState (store (run (Some "k") collidingRun initialWorld)))
       = [ {| id := "1700000000000"; role := user;
              text := "My circuit isn't powering on"; image := None;
              timestamp := 1700000000000 |};
           {| id := "1700000000951"; role := model;
              text := "Check fuse F1."; image := None;
              timestamp := 1700000000950 |} ] ++ [m]
    ∧ role m = user.
Proof.
  apply (pending_conversation_is_history_and_turn (Some "k") collidingRun
           {| call_prompt := "F1 is fine";
              call_history :=
                [ {| id := "1700000000000"; role := user;
                     text := "My circuit isn't powering on"; image := None;
                     timestamp := 1700000000000 |};
                  {| id := "1700000000951"; role := model;
                     text := "Check fuse F1."; image := None;
                     timestamp := 1700000000950 |} ];
              call_skillLevel := INTERMEDIATE;
              call_currentImage := None |});
    [reflexivity | apply collidingRun_fresh |].
  vm_compute. left.
Defined.

(** *** With any reads: the first turn *)

Lemma handleSendMessage_started render st' customPrompt customImage now date w w0 :
  chatState st' = chatState (store w) →
  outstanding w0 = outstanding w →
  started w →
  started (issue (handleSendMessage render customPrompt customImage now date st') w0).
Proof.
  intros Hs Ho [Hne Hhead]. unfold handleSendMessage.
  destruct (ignored render customPrompt customImage).
  - unfold issue, started. simpl. by rewrite app_nil_r, Ho, Hs.
  - unfold issue, started. simpl. rewrite Hs. split.
    + intros _ [_ ?]%app_eq_nil. done.
    + apply head_snoc_user; [apply displayMessage_role | done].
Qed.

(** Every action but the reset keeps the first turn a user turn, whatever
    render a reader calls back. *)
Lemma perform_started apiKey a w :
  isReset a = false → started w → started (perform apiKey a w).
Proof.
  intros Ha Hs.
  destruct a as [cp ci n d|chosen|i r n d| | | |i o n d]; cbn [perform].
  - by apply (handleSendMessage_started _ _ _ _ _ _ w).
  - destruct chosen; exact Hs.
  - destruct (readers w !! i) as [render|]; [|exact Hs].
    unfold handleImageUpload.
    by apply (handleSendMessage_started _ _ _ _ _ _ w).
  - discriminate Ha.
  - exact Hs.
  - exact Hs.
  - destruct (outstanding w !! i) as [c|] eqn:Hc; [|exact Hs].
    destruct Hs as [Hne Hhead].
    assert (messages (chatState (store w)) ≠ []) as Hm.
    { apply Hne. intros Hout. by rewrite Hout in Hc. }
    destruct (callInsight apiKey (λ _, o) c).1 as [aiResponse|message];
      unfold started; simpl.
    + split.
      * intros _ [_ ?]%app_eq_nil. done.
      * intros m0 H0. apply Hhead. revert Hm H0.
        generalize (messages (chatState (store w))). by intros [|x l].
    + done.
Qed.

Lemma run_started apiKey acts : ∀ w,
  noReset acts = true → started w → started (run apiKey acts w).
Proof.
  induction acts as [|a acts IH]; intros w Hn Hs; [done|].
  simpl in Hn. apply andb_true_iff in Hn as [Ha Hn].
  rewrite run_cons. apply IH; [done|].
  apply perform_started; [|done]. by destruct (isReset a).
Qed.

Lemma initialWorld_started : started initialWorld.
Proof. by split. Qed.

(** X16: in a session without reset, every model turn is preceded by a
    user turn: the conversation, when not empty, starts with one. *)
Theorem model_turn_follows_user_turn
    (apiKey : option string) (acts : list Action) (i : nat) (m : Message) :
  noReset acts = true →
  messages (chatState (store (run apiKey acts initialWorld))) !! i = Some m →
  role m = model →
  (0 < i)%nat
  ∧ ∃ m0, messages (chatState (store (run apiKey acts initialWorld))) !! 0%nat
          = Some m0
      ∧ role m0 = user.
Proof.
  intros Hn Hi Hm.
  destruct (run_started apiKey acts initialWorld Hn initialWorld_started) as [_ Hh].
  destruct (messages (chatState (store (run apiKey acts initialWorld))))
    as [|m0 l]; [done|].
  specialize (Hh m0 eq_refl). split.
  - destruct i; [|lia]. simpl in Hi. congruence.
  - by exists m0.
Qed.

Lemma model_turn_follows_user_turn_witness :
  (0 < 1)%nat
  ∧ ∃ m0, messages (chatState (store (run (Some "k") collidingRun initialWorld)))
            !! 0%nat = Some m0
      ∧ role m0 = user.
Proof.
  exact (model_turn_follows_user_turn (Some "k") collidingRun 1
           {| id := "1700000000951"; role := model; text := "Check fuse F1.";
              image := None; timestamp := 1700000000950 |}
           eq_refl eq_refl eq_refl).
Defined.

(** *** With any reads and resets: the pending flag *)

Lemma handleSendMessage_pending render customPrompt customImage now date st out :
  (isLoading (chatState st) = true → out ≠ [] ∧ error (chatState st) = None) →
  isLoading
    (chatState (handleSendMessage render customPrompt customImage now date st).1)
  = true →
  out ++ option_list
           (handleSendMessage render customPrompt customImage now date st).2 ≠ []
  ∧ error
      (chatState (handleSendMessage render customPrompt customImage now date st).1)
    = None.
Proof.
  intros Hinv. unfold handleSendMessage.
  destruct (ignored render customPrompt customImage); simpl.
  - rewrite app_nil_r. apply Hinv.
  - intros _. split; [|done]. by destruct out.
Qed.

(** One action keeps: if the store is pending then a call is outstanding
    and no error is recorded. *)
Lemma perform_pending apiKey a w :
  (isLoading (chatState (store w)) = true →
   outstanding w ≠ [] ∧ error (chatState (store w)) = None) →
  isLoading (chatState (store (perform apiKey a w))) = true →
  outstanding (perform apiKey a w) ≠ []
  ∧ error (chatState (store (perform apiKey a w))) = None.
Proof.
  intros Hinv.
  destruct a as [cp ci n d|chosen|i r n d| | | |i o n d]; cbn [perform].
  - by apply handleSendMessage_pending.
  - destruct chosen; apply Hinv.
  - destruct (readers w !! i) as [render|]; [|apply Hinv].
    unfold handleImageUpload. cbn [issue store outstanding].
    by apply handleSendMessage_pending.
  - done.
  - apply Hinv.
  - apply Hinv.
  - destruct (outstanding w !! i) as [c|]; [|apply Hinv].
    simpl. by destruct (callInsight apiKey (λ _, o) c).1.
Qed.

Lemma run_pending apiKey acts : ∀ w,
  (isLoading (chatState (store w)) = true →
   outstanding w ≠ [] ∧ error (chatState (store w)) = None) →
  isLoading (chatState (store (run apiKey acts w))) = true →
  outstanding (run apiKey acts w) ≠ []
  ∧ error (chatState (store (run apiKey acts w))) = None.
Proof.
  induction acts as [|a acts IH]; intros w Hinv; [done|].
  rewrite run_cons. apply IH. by apply perform_pending.
Qed.

(** X17: in every session, resets included, a pending store has a call
    outstanding, so that a completion will lower the flag, and records no
    error: the loading indicator and the error banner never show
    together. *)
Theorem pending_store_awaits_a_call
    (apiKey : option string) (acts : list Action) :
  isLoading (chatState (store (run apiKey acts initialWorld))) = true →
  outstanding (run apiKey acts initialWorld) ≠ []
  ∧ errorShown (store (run apiKey acts initialWorld)) = false.
Proof.
  intros Hl. destruct (run_pending apiKey acts initialWorld) as [Ho He];
    [done | done |].
  split; [done|]. unfold errorShown. by rewrite He.
Qed.

Lemma pending_store_awaits_a_call_witness :
  outstanding
    (run (Some "k")
       [ InputChange "Why is R1 hot?";
         SendMessage None None 1700000000000 1700000000001;
         ResetChat;
         InputChange "And R2?";
         SendMessage None None 1700000000500 1700000000501 ]
       initialWorld) ≠ []
  ∧ errorShown
      (store
         (run (Some "k")
            [ InputChange "Why is R1 hot?";
              SendMessage None None 1700000000000 1700000000001;
              ResetChat;
              InputChange "And R2?";
              SendMessage None None 1700000000500 1700000000501 ]
            initialWorld))
    = false.
Proof.
  exact (pending_store_awaits_a_call (Some "k")
           [ InputChange "Why is R1 hot?";
             SendMessage None None 1700000000000 1700000000001;
             ResetChat;
             InputChange "And R2?";
             SendMessage None None 1700000000500 1700000000501 ]
           eq_refl).
Defined.

(** X18: the conversation is append-only: every action but the reset
    leaves the turns that were there, unchanged and in place, and appends
    at most one. *)
Theorem turns_are_append_only (apiKey : option string) (a : Action) (w : World) :
  isReset a = false →
  ∃ new,
    messages (chatState (store (perform apiKey a w)))
    = messages (chatState (store w)) ++ new
    ∧ (length new ≤ 1)%nat.
Proof.
  intros Ha.
  assert (Hsend : ∀ render cp ci n d st,
            ∃ new,
              messages (chatState (handleSendMessage render cp ci n d st).1)
              = messages (chatState st) ++ new
              ∧ (length new ≤ 1)%nat).
  { intros. unfold handleSendMessage. destruct (ignored render cp ci); simpl.
    - exists []. split; [by rewrite app_nil_r | simpl; lia].
    - eexists [_]. split; [reflexivity | simpl; lia]. }
  assert (Hsame : ∃ new,
            messages (chatState (store w))
            = messages (chatState (store w)) ++ new
            ∧ (length new ≤ 1)%nat).
  { exists []. split; [by rewrite app_nil_r | simpl; lia]. }
  destruct a as [cp ci n d|chosen|i r n d| | | |i o n d]; cbn [perform].
  - apply Hsend.
  - by destruct chosen.
  - destruct (readers w !! i) as [render|]; [|done].
    exact (Hsend _ _ _ _ _ (setSelectedImage r (store w))).
  - discriminate Ha.
  - done.
  - done.
  - destruct (outstanding w !! i) as [c|]; [|done].
    simpl. destruct (callInsight apiKey (λ _, o) c).1; simpl.
    + eexists [_]. split; [reflexivity | simpl; lia].
    + done.
Qed.

Lemma turns_are_append_only_witness :
  ∃ new,
    messages
      (chatState
         (store (perform (Some "k")
                   (SendMessage None None 1700000000000 1700000000001)
                   stagedWorld)))
    = messages (chatState (store stagedWorld)) ++ new
    ∧ (length new ≤ 1)%nat.
Proof.
  exact (turns_are_append_only (Some "k")
           (SendMessage None None 1700000000000 1700000000001) stagedWorld
           eq_refl).
Defined.

(** ** Reads that end late, and reads that fail *)

Lemma staleAfter_reachable : reachable (Some "k") staleAfter.
Proof.
  exists (staleRun_before ++ [staleRead]). split.
  - unfold chronological. simpl. repeat constructor; lia.
  - unfold staleAfter, staleBefore, run. by rewrite foldl_app.
Qed.

Lemma failedAfter_reachable : reachable (Some "k") failedAfter.
Proof.
  exists (failedRead_before ++ [failedRead]). split.
  - unfold chronological. simpl. repeat constructor; lia.
  - unfold failedAfter, failedBefore, run. by rewrite foldl_app.
Qed.

(** C1, at a session the code admits: a question is typed and a file is
    picked while the conversation is empty, the question is sent, and then
    the reader finishes.  The submit of the reader's callback is accepted, and
    one turn existed before it, the question; but the history passed to
    the insight client is that of the render in which the file was picked,
    which is empty: it is not the sequence of turns before the submit. *)
Theorem C1_late_read_passes_stale_history :
  reachable (Some "k") staleAfter
  ∧ (λ m, (role m, text m)) <$> messages (chatState (store staleBefore))
    = [ (user, "Why is R1 hot?") ]
  ∧ ∃ c m,
      outstanding staleAfter = outstanding staleBefore ++ [c]
      ∧ messages (chatState (store staleAfter))
        = messages (chatState (store staleBefore)) ++ [m]
      ∧ call_prompt c
        = "Initiate full Safety Check and Component Identification. Be concise for mobile."
      ∧ call_history c = []
      ∧ call_history c ≠ messages (chatState (store staleBefore)).
Proof.
  split; [apply staleAfter_reachable|]. split; [by vm_compute|].
  eexists _, _. split_and!; [by vm_compute | by vm_compute | done | done | done].
Qed.

(** C3, at the same session: when the reader finishes, a request is
    pending in the store and one call is outstanding; yet the submit of
    the reader's callback, whose render shows no pending request, is not a
    no-op: it appends a second user turn and makes a second call. *)
Theorem C3_late_read_is_accepted_while_pending :
  reachable (Some "k") staleBefore
  ∧ isLoading (chatState (store staleBefore)) = true
  ∧ length (outstanding staleBefore) = 1%nat
  ∧ length (messages (chatState (store staleBefore))) = 1%nat
  ∧ length (outstanding staleAfter) = 2%nat
  ∧ role <$> messages (chatState (store staleAfter)) = [user; user]
  ∧ staleAfter ≠ staleBefore.
Proof.
  split.
  { exists staleRun_before. split; [|done].
    unfold chronological. simpl. repeat constructor; lia. }
  split_and!; by vm_compute.
Qed.

(** C10, at a session the code admits: an image is uploaded and its
    analysis answered, so that the image is staged; another file is picked
    and its read fails.  The callback of the failed read, which is not a
    reset, sets the staged image to null, and submits with the image that
    was staged before. *)
Theorem C10_failed_read_clears_staged_image :
  reachable (Some "k") failedAfter
  ∧ selectedImage (store failedBefore) = Some "data:image/png;base64,QUJD"
  ∧ isReset failedRead = false
  ∧ selectedImage (store failedAfter) = None
  ∧ ∃ c, outstanding failedAfter = [c]
         ∧ call_currentImage c = Some "data:image/png;base64,QUJD".
Proof.
  split; [apply failedAfter_reachable|].
  split_and!; try by vm_compute.
  eexists. split; by vm_compute.
Qed.
